(** * Thermal-analysis dashboard: detection normalisation, overlay
      rendering and the upload pipeline

    A shallow embedding of the TypeScript front end:

    - [FrontEnd/ImageOverlay.tsx]: [normalizeBoundingBoxes], the scale
      factors, the colour palette and the per-box annotation;
    - [FrontEnd/DebugPanel.tsx] (which also carries the [App] component):
      [getDetections], [handleImageUpload], [handleClear], and the
      conditional of the [DebugPanel] view;
    - [FrontEnd/src/components/UploadZone.tsx]: which handlers are wired to
      the rendered elements.

    The analysis result is arbitrary JSON, so values are modelled as an
    untyped JavaScript value type; numbers are IEEE-754 binary64, which is
    what Rocq's primitive [float] is. *)

From Stdlib Require Import ZArith Uint63 Floats String DecimalString.
From stdpp Require Import gmap strings list.

#[local] Set Warnings "-register-all,-inexact-float".
#[local] Open Scope string_scope.

(** ** JavaScript values *)

Module JS.

Inductive JsVal : Type :=
| JUndefined
| JNull
| JBool (b : bool)
| JNum (n : float)
| JStr (s : string)
| JArr (elems : list JsVal)
| JObj (props : gmap string JsVal).

(** [v === undefined], [v == null]. *)
Definition is_undefined (v : JsVal) : bool :=
  match v with JUndefined => true | _ => false end.

Definition is_nullish (v : JsVal) : bool :=
  match v with JUndefined | JNull => true | _ => false end.

(** [a ?? b]; the operator associates to the left, [a ?? b ?? c] being
    [(a ?? b) ?? c]. *)
Definition nullish_or (a b : JsVal) : JsVal :=
  if is_nullish a then b else a.

(** [Array.isArray(v)]. *)
Definition isArray (v : JsVal) : bool :=
  match v with JArr _ => true | _ => false end.

(** ToBoolean on a number: [+0], [-0] and [NaN] are the falsy numbers. *)
Definition num_truthy (n : float) : bool :=
  negb (PrimFloat.is_zero n || PrimFloat.is_nan n).

(** ToBoolean. *)
Definition truthy (v : JsVal) : bool :=
  match v with
  | JUndefined | JNull => false
  | JBool b => b
  | JNum n => num_truthy n
  | JStr s => negb (String.eqb s "")
  | JArr _ | JObj _ => true
  end.

(** [a || b] on numbers, as used for the scale divisor. *)
Definition num_or (a b : float) : float :=
  if num_truthy a then a else b.

(** Decimal text of a non-negative integer, as a template literal prints an
    integral number. *)
Definition dec (n : nat) : string :=
  NilEmpty.string_of_uint (Nat.to_uint n).

(** Element [i] taken by an array destructuring pattern: positions past the
    end of the array yield [undefined]. *)
Definition elem (a : list JsVal) (i : nat) : JsVal :=
  default JUndefined (a !! i).

(** A non-negative integer as a number (exact below 2^53). *)
Definition num_of_nat (n : nat) : float :=
  PrimFloat.of_uint63 (Uint63.of_Z (Z.of_nat n)).

(** An array index written as a property key: decimal digits with no
    leading zero. *)
Definition index_of_key (k : string) : option nat :=
  match NilEmpty.uint_of_string k with
  | Some u =>
      let i := Nat.of_uint u in
      if String.eqb (dec i) k then Some i else None
  | None => None
  end.

(** Property read [v.k] for a value [v] that is neither [null] nor
    [undefined] (every read in the modelled code is on such a value; the
    callers below guard the others, where JavaScript throws a TypeError).
    The own properties are looked up: the entries of an object, [length]
    and the indices of an array or of a string (taken as its sequence of
    code units).  Inherited properties are left out: no built-in prototype
    defines any of the names the modelled code reads ([bbox], [x],
    [label], [detections], ...). *)
Definition prop (v : JsVal) (k : string) : JsVal :=
  match v with
  | JObj o => default JUndefined (o !! k)
  | JArr a =>
      if String.eqb k "length" then JNum (num_of_nat (length a))
      else match index_of_key k with
           | Some i => elem a i
           | None => JUndefined
           end
  | JStr s =>
      if String.eqb k "length" then JNum (num_of_nat (String.length s))
      else match index_of_key k with
           | Some i =>
               match String.get i s with
               | Some c => JStr (String c "")
               | None => JUndefined
               end
           | None => JUndefined
           end
  | JUndefined | JNull | JBool _ | JNum _ => JUndefined
  end.

(** The elements of an array value (used where the code has already tested
    [Array.isArray]). *)
Definition elems_of (v : JsVal) : list JsVal :=
  match v with JArr a => a | _ => [] end.

Definition decZ (n : Z) : string :=
  NilEmpty.string_of_uint (N.to_uint (Z.to_N n)).

(** ToNumber, for the operand of [*].  [None] marks the coercions left out
    of this model: parsing a string as a numeric literal, and ToPrimitive on
    arrays and objects. *)
Definition ToNumber (v : JsVal) : option float :=
  match v with
  | JUndefined => Some nan
  | JNull => Some 0%float
  | JBool b => Some (if b then 1%float else 0%float)
  | JNum n => Some n
  | JStr _ | JArr _ | JObj _ => None
  end.

(** [v * s] with a numeric right operand. *)
Definition times (v : JsVal) (s : float) : option float :=
  (fun n => (n * s)%float) <$> ToNumber v.

(** The integer nearest to [m * 2^e], the larger one on a tie. *)
Definition nearest_int (m : positive) (e : Z) : Z :=
  if (0 <=? e)%Z then Z.pos m * 2 ^ e
  else (2 * Z.pos m + 2 ^ (- e)) / 2 ^ (1 - e).

(** [n.toFixed(0)] (Number.prototype.toFixed with zero fraction digits):
    a non-finite number prints as [NaN] or [Infinity]; otherwise the sign,
    then the integer nearest to the magnitude (the larger on a tie).
    [None] marks magnitudes of 10^21 and above, which print in exponent
    notation through Number::toString and are left out of this model. *)
Definition toFixed0 (n : float) : option string :=
  match Prim2SF n with
  | S754_nan => Some "NaN"
  | S754_infinity s => Some (if s then "-Infinity" else "Infinity")
  | S754_zero _ => Some "0"
  | S754_finite s m e =>
      let k := nearest_int m e in
      if (10 ^ 21 <=? k)%Z then None
      else Some ((if s then "-" else "") ++ decZ k)
  end.

(** Text that React puts in the DOM for a child expression: a string as it
    is, nothing for [false], [true], [null] and [undefined].  [None] marks
    the children left out of this model (numbers, arrays, objects). *)
Definition reactText (v : JsVal) : option string :=
  match v with
  | JStr s => Some s
  | JUndefined | JNull | JBool _ => Some ""
  | JNum _ | JArr _ | JObj _ => None
  end.

(** [v?.length]. *)
Definition optional_length (v : JsVal) : JsVal :=
  if is_nullish v then JUndefined else prop v "length".

(** Whether converting [v] to a number (the operand of [*]) throws a
    TypeError.  Only an object or an array is converted through
    ToPrimitive, which calls [valueOf] and [toString] when they are
    callable and throws when neither gives a primitive.  For an object
    parsed from JSON the inherited [valueOf] returns the object itself,
    and the inherited [toString] returns a string, unless the object has an
    own property [toString], which, being data, is not callable: then
    nothing gives a primitive.  An array is joined, each element other than
    [null] and [undefined] being converted to a string, which throws for
    the same objects. *)
Fixpoint coerce_throws (v : JsVal) : bool :=
  match v with
  | JObj o => bool_decide (is_Some (o !! "toString"))
  | JArr a => existsb coerce_throws a
  | JUndefined | JNull | JBool _ | JNum _ | JStr _ => false
  end.

(** [v] holds no object, at any depth. *)
Fixpoint object_free (v : JsVal) : bool :=
  match v with
  | JObj _ => false
  | JArr a => forallb object_free a
  | JUndefined | JNull | JBool _ | JNum _ | JStr _ => true
  end.

(** Whether React throws on [v] as a child ("Objects are not valid as a
    React child"): an object does, an array is rendered element by
    element, everything else is text or nothing. *)
Fixpoint invalid_child (v : JsVal) : bool :=
  match v with
  | JObj _ => true
  | JArr a => existsb invalid_child a
  | JUndefined | JNull | JBool _ | JNum _ | JStr _ => false
  end.

End JS.

Import JS.

(** ** ImageOverlay.tsx *)

Module ImageOverlay.

(** [interface BoundingBox].  The interface declares the coordinates as
    [number], [label] as [string | undefined] and [confidence] as
    [number | undefined]; the fields are copied from the raw record without
    any check, so at run time they hold whatever value the record had. *)
Record BoundingBox : Type := mkBox {
  x : JsVal;
  y : JsVal;
  width : JsVal;
  height : JsVal;
  label : JsVal;
  confidence : JsVal
}.

(** The callback of [detections.map] inside [normalizeBoundingBoxes].
    [None] is the TypeError of reading a property of [null]/[undefined]. *)
Definition normalizeDetection (d : JsVal) : option BoundingBox :=
  if is_nullish d then None else
  let '(x, y, width, height) :=
    if truthy (prop d "bbox") && isArray (prop d "bbox") then
      let a := elems_of (prop d "bbox") in
      (elem a 0, elem a 1, elem a 2, elem a 3)
    else if truthy (prop d "bounding_box") && isArray (prop d "bounding_box") then
      let a := elems_of (prop d "bounding_box") in
      (elem a 0, elem a 1, elem a 2, elem a 3)
    else if truthy (prop d "coordinates") && isArray (prop d "coordinates") then
      let a := elems_of (prop d "coordinates") in
      (elem a 0, elem a 1, elem a 2, elem a 3)
    else
      (nullish_or (prop d "x") (JNum 0),
       nullish_or (prop d "y") (JNum 0),
       nullish_or (nullish_or (prop d "width") (prop d "w")) (JNum 0),
       nullish_or (nullish_or (prop d "height") (prop d "h")) (JNum 0))
  in
  Some {| x := x; y := y; width := width; height := height;
          label := nullish_or (nullish_or (prop d "label") (prop d "class"))
                              (prop d "class_name");
          confidence := nullish_or (prop d "confidence") (prop d "score") |}.

Definition normalizeBoundingBoxes (detections : list JsVal)
  : option (list BoundingBox) :=
  mapM normalizeDetection detections.

(** The two pieces of component state, [imageDimensions] and
    [naturalDimensions]: objects [{ width, height }] of numbers. *)
Module Size.
Record t : Type := mk { width : float; height : float }.
End Size.

(** Color palette for different detection classes. *)
Definition COLORS : list string :=
  [ "hsl(25, 100%, 50%)";
    "hsl(142, 76%, 45%)";
    "hsl(200, 100%, 50%)";
    "hsl(280, 100%, 60%)";
    "hsl(45, 100%, 50%)" ].

Definition scaleX (imageDimensions naturalDimensions : Size.t) : float :=
  (Size.width imageDimensions / num_or (Size.width naturalDimensions) 1)%float.

Definition scaleY (imageDimensions naturalDimensions : Size.t) : float :=
  (Size.height imageDimensions / num_or (Size.height naturalDimensions) 1)%float.

(** What the [<g>] element of one box is drawn from: the stroke colour
    ([None] for [undefined]), the four attributes of the dashed [<rect>],
    and the label chip: [chip] is [None] when the guard of the chip is
    false and [Some t] when it is true, [t] being its text.  For a numeric
    attribute and for the text [t], [None] is a value outside the modelled
    coercions (see [ToNumber], [toFixed0], [reactText]); whether drawing
    the box throws is told by [boxThrows] below, not by these fields.  The
    corner accents and the geometry of the chip are drawn from the same
    four numbers and are not repeated here. *)
Record Annotation : Type := mkAnnotation {
  color : option string;
  scaledX : option float;
  scaledY : option float;
  scaledWidth : option float;
  scaledHeight : option float;
  chip : option (option string)
}.

(** The condition guarding the label background and text:
    [box.label || box.confidence !== undefined]. *)
Definition chipShown (box : BoundingBox) : bool :=
  truthy (label box) || negb (is_undefined (confidence box)).

(** The two children of the chip's [<text>] element. *)
Definition chipLabelChild (box : BoundingBox) (index : nat) : JsVal :=
  nullish_or (label box) (JStr ("Detection " ++ dec (index + 1))).

Definition chipConfidenceChild (box : BoundingBox) : option JsVal :=
  if negb (is_undefined (confidence box)) then
    n ← times (confidence box) 100;
    s ← toFixed0 n;
    Some (JStr (" " ++ s ++ "%"))
  else Some (JBool false).

Definition chipText (box : BoundingBox) (index : nat) : option string :=
  a ← reactText (chipLabelChild box index);
  c ← chipConfidenceChild box;
  b ← reactText c;
  Some (a ++ b).

(** The callback of [boxes.map((box, index) => ...)], given the two scale
    factors. *)
Definition renderBox (sx sy : float) (index : nat) (box : BoundingBox)
  : Annotation :=
  {| color := COLORS !! (index mod length COLORS);
     scaledX := times (x box) sx;
     scaledY := times (y box) sy;
     scaledWidth := times (width box) sx;
     scaledHeight := times (height box) sy;
     chip := if chipShown box then Some (chipText box index) else None |}.

Definition renderBoxes (sx sy : float) (boxes : list BoundingBox)
  : list Annotation :=
  imap (renderBox sx sy) boxes.

(** The detection count badge. *)
Definition badge (boxes : list BoundingBox) : option string :=
  if (0 <? length boxes)%nat then
    Some (dec (length boxes) ++ " detection"
          ++ (if (length boxes =? 1)%nat then "" else "s"))
  else None.

(** Whether drawing one box throws.  The four products [box.x * scaleX],
    [box.y * scaleY], [box.width * scaleX] and [box.height * scaleY]
    convert the coordinates to numbers.  When the guard of the chip is
    true, the width of the chip converts [box.label?.length ?? 0], the
    first child of its [<text>] is [box.label ?? ...], and with a
    confidence other than [undefined] the second child converts
    [box.confidence]. *)
Definition boxThrows (index : nat) (box : BoundingBox) : bool :=
  coerce_throws (x box) || coerce_throws (y box)
  || coerce_throws (width box) || coerce_throws (height box)
  || chipShown box
     && (coerce_throws (nullish_or (optional_length (label box)) (JNum 0))
         || invalid_child (chipLabelChild box index)
         || negb (is_undefined (confidence box))
            && coerce_throws (confidence box)).

(** Whether a render of the component throws: while normalising, or while
    drawing a box.  Nothing else in the component can throw on values
    parsed from JSON. *)
Definition throws (detections : option (list JsVal)) : bool :=
  match detections with
  | None => false
  | Some ds =>
      match normalizeBoundingBoxes ds with
      | None => true
      | Some boxes => existsb (fun t => t) (imap boxThrows boxes)
      end
  end.

(** The component: [detections] is the prop of type [Detection[] | null].
    [None] is an exception thrown during the render. *)
Definition render (detections : option (list JsVal))
    (imageDimensions naturalDimensions : Size.t)
  : option (list Annotation * option string) :=
  if throws detections then None else
  boxes ← match detections with
          | Some ds => normalizeBoundingBoxes ds
          | None => Some []
          end;
  Some (renderBoxes (scaleX imageDimensions naturalDimensions)
                    (scaleY imageDimensions naturalDimensions) boxes,
        badge boxes).

End ImageOverlay.

(** ** The DebugPanel view *)

Module DebugPanel.

(** The panel shows exactly one of four views, chosen by the conditional
    [isLoading ? ... : error ? ... : response ? ... : ...].  They are named
    here after the four pipeline states they display: the pulsing
    "Awaiting response...", the error text, the highlighted JSON, and the
    "No data yet" placeholder. *)
Inductive PipelineState : Type :=
| Idle
| Uploading
| Succeeded (result : JsVal)
| Failed (message : string).

(** [error] is [string | null]; [response] is [object | null], with [JNull]
    for [null]. *)
Definition view (response : JsVal) (error : option string)
    (isLoading : bool) : PipelineState :=
  let on_response := if truthy response then Succeeded response else Idle in
  if isLoading then Uploading
  else match error with
       | Some e => if truthy (JStr e) then Failed e else on_response
       | None => on_response
       end.

End DebugPanel.

(** ** The App component *)

Module App.

Import DebugPanel.

(** A [File] picked by the user. *)
Record File : Type := mkFile { file_name : string; file_size : nat }.

(** An object URL ([blob:...]) handed out by [URL.createObjectURL]: the
    browser makes a new one on every call, so they are numbered.  Such a
    URL is a non-empty string, hence truthy. *)
Definition Url : Type := nat.

(** A value raised by [throw] or a rejected promise: an [Error] with its
    message, or anything else. *)
Inductive Thrown : Type :=
| ErrorObj (message : string)
| OtherThrown.

Inductive Settled (A : Type) : Type :=
| Fulfilled (a : A)
| Rejected (e : Thrown).
Arguments Fulfilled {A} a.
Arguments Rejected {A} e.

(** The [Response] of [fetch]: its status code and what [res.text()] and
    [res.json()] settle to. *)
Record Response : Type := mkResponse {
  status : nat;
  text : Settled string;
  json : Settled JsVal
}.

(** [res.ok]: the status is in the range 200-299. *)
Definition ok (res : Response) : bool :=
  (200 <=? status res)%nat && (status res <=? 299)%nat.

(** The five [useState] cells of [App]. *)
Record AppState : Type := mkApp {
  imageFile : option File;
  previewUrl : option Url;
  isAnalyzing : bool;
  response : JsVal;
  error : option string
}.

(** The component state together with the browser's table of object URLs
    that have been created and not revoked, the number of the next URL, and
    the number of [fetch] calls that have not settled yet. *)
Record World : Type := mkWorld {
  app : AppState;
  live : gset Url;
  next : Url;
  pending : nat
}.

Definition init : World :=
  {| app := {| imageFile := None; previewUrl := None; isAnalyzing := false;
               response := JNull; error := None |};
     live := ∅; next := 0; pending := 0 |}.

(** [handleImageUpload], up to the [await fetch(...)]. *)
Definition handleImageUpload_begin (file : File) (w : World) : World :=
  let url := next w in
  {| app := {| imageFile := Some file;
               previewUrl := Some url;
               error := None;
               response := JNull;
               isAnalyzing := true |};
     live := {[url]} ∪ live w;
     next := S (next w);
     pending := S (pending w) |}.

(** [err instanceof Error ? err.message : "Unknown error occurred"]. *)
Definition message_of (err : Thrown) : string :=
  match err with
  | ErrorObj m => m
  | OtherThrown => "Unknown error occurred"
  end.

(** The body of the [try] block once [fetch] has settled: the parsed data,
    or the value thrown. *)
Definition try_block (outcome : Settled Response) : Settled JsVal :=
  match outcome with
  | Rejected e => Rejected e
  | Fulfilled res =>
      if negb (ok res) then
        match text res with
        | Fulfilled errorText =>
            Rejected (ErrorObj ("HTTP " ++ dec (status res) ++ ": " ++ errorText))
        | Rejected e => Rejected e
        end
      else json res
  end.

(** [handleImageUpload], from the settling of [fetch] to the end:
    [setResponse(data)] or the [catch] clause, then the [finally] clause. *)
Definition handleImageUpload_settle (outcome : Settled Response) (w : World)
  : World :=
  let a := app w in
  let a' :=
    match try_block outcome with
    | Fulfilled data =>
        {| imageFile := imageFile a; previewUrl := previewUrl a;
           isAnalyzing := isAnalyzing a; response := data; error := error a |}
    | Rejected err =>
        {| imageFile := imageFile a; previewUrl := previewUrl a;
           isAnalyzing := isAnalyzing a; response := response a;
           error := Some (message_of err) |}
    end in
  {| app := {| imageFile := imageFile a'; previewUrl := previewUrl a';
               isAnalyzing := false; response := response a';
               error := error a' |};
     live := live w; next := next w; pending := pred (pending w) |}.

Definition handleClear (w : World) : World :=
  let a := app w in
  {| app := {| imageFile := None; previewUrl := None;
               isAnalyzing := isAnalyzing a;
               response := JNull; error := None |};
     live := match previewUrl a with
             | Some u => live w ∖ {[u]}
             | None => live w
             end;
     next := next w; pending := pending w |}.

(** Extract detections from response (handle various API response
    formats).  The result [JNull] is the [null] the function returns. *)
Definition getDetections (response : JsVal) : JsVal :=
  if negb (truthy response) then JNull
  else if isArray (prop response "detections") then prop response "detections"
  else if isArray (prop response "predictions") then prop response "predictions"
  else if isArray (prop response "results") then prop response "results"
  else if isArray (prop response "boxes") then prop response "boxes"
  else if isArray response then response
  else JNull.

(** The state shown by the debug panel, which [App] feeds with [response],
    [error] and [isAnalyzing]. *)
Definition pipelineState (a : AppState) : PipelineState :=
  view (response a) (error a) (isAnalyzing a).

(** The elements of the left column that call a handler of [App]. *)
Inductive Control : Type :=
| UploadControl   (* drop area and file input: [onImageUpload] *)
| ClearControl.   (* a clear button: [handleClear] *)

End App.

(** ** UploadZone.tsx *)

Module UploadZone.

Import App.

(** With a preview the component returns the image and its clear button
    only; the drop area and the file input are in the other branch. *)
Definition controls (previewUrl : option Url) : list Control :=
  match previewUrl with
  | Some _ => [ClearControl]
  | None => [UploadControl]
  end.

End UploadZone.

(** ** The running application *)

Module Pipeline.

Import App.

(** [detections && detections.length > 0] for the value returned by
    [getDetections] (an array or [null]). *)
Definition has_detections (detections : JsVal) : bool :=
  truthy detections && (0 <? length (elems_of detections))%nat.

(** [previewUrl && detections && detections.length > 0]: the left column
    of [App] renders [ImageOverlay] rather than [UploadZone]. *)
Definition overlayShown (a : AppState) : bool :=
  bool_decide (is_Some (previewUrl a))
  && has_detections (getDetections (response a)).

(** The render of this state throws.  Only [ImageOverlay] can throw, and
    whether it does depends on its [detections] alone.  No error boundary
    catches the exception, so React unmounts the whole tree: nothing is
    displayed any more and the state of [App] is gone, while the browser's
    table of object URLs stays as it was. *)
Definition crashed (a : AppState) : bool :=
  overlayShown a
  && ImageOverlay.throws (Some (elems_of (getDetections (response a)))).

(** The left column of [App]: the overlay with its "Clear & Upload New
    Image" button when there is a preview and at least one detection, the
    upload zone otherwise; nothing when the render of the overlay throws. *)
Definition controls (a : AppState) : list Control :=
  if overlayShown a
  then (if ImageOverlay.throws (Some (elems_of (getDetections (response a))))
        then [] else [ClearControl])
  else UploadZone.controls (previewUrl a).

(** One event of the page: the user picks or drops a file, the user
    presses a clear button, or an outstanding [fetch] settles.  A state
    whose render throws has no successor: no control is left, and a
    [fetch] that settles afterwards calls the setters of an unmounted
    component, which do nothing. *)
Inductive step : World -> World -> Prop :=
| step_upload w file :
    UploadControl ∈ controls (app w) ->
    step w (handleImageUpload_begin file w)
| step_clear w :
    ClearControl ∈ controls (app w) ->
    step w (handleClear w)
| step_settle w outcome :
    crashed (app w) = false ->
    (0 < pending w)%nat ->
    step w (handleImageUpload_settle outcome w).

Definition reachable (w : World) : Prop := rtc step init w.

(** The preview on screen: [UploadZone] and [ImageOverlay] both show the
    image at [previewUrl] when there is one; after a render exception
    nothing is shown. *)
Definition displayedPreview (a : AppState) : option Url :=
  if crashed a then None else previewUrl a.

End Pipeline.

(** ** The specification's wording *)

Module Spec.

(** The array held by field [k], if the record has that field and it is an
    array. *)
Definition array_field (o : gmap string JsVal) (k : string)
  : option (list JsVal) :=
  match o !! k with
  | Some (JArr a) => Some a
  | _ => None
  end.

(** "First match wins, in this priority order": the first of the fields
    [keys] that holds an array. *)
Fixpoint first_array_among (o : gmap string JsVal) (keys : list string)
  : option (list JsVal) :=
  match keys with
  | [] => None
  | k :: keys' =>
      match array_field o k with
      | Some a => Some a
      | None => first_array_among o keys'
      end
  end.

(** Box extraction: [bbox], else [bounding_box], else [coordinates]. *)
Definition first_array_field (o : gmap string JsVal) : option (list JsVal) :=
  first_array_among o ["bbox"; "bounding_box"; "coordinates"].

(** [resolve]: the first array among the fields [detections],
    [predictions], [results], [boxes]; else the payload itself when it is an
    array; else absent ([null]). *)
Definition resolve (payload : JsVal) : JsVal :=
  match payload with
  | JObj o =>
      match first_array_among o
              ["detections"; "predictions"; "results"; "boxes"] with
      | Some a => JArr a
      | None => JNull
      end
  | JArr a => JArr a
  | _ => JNull
  end.

(** [sub] occurs in [s]. *)
Definition contains (s sub : string) : Prop :=
  exists pre post, s = pre ++ sub ++ post.

(** A field is present with value [v] when the record has it and it is
    neither [null] nor [undefined]; it is absent otherwise. *)
Definition present (o : gmap string JsVal) (k : string) (v : JsVal) : Prop :=
  o !! k = Some v /\ is_nullish v = false.

Definition absent (o : gmap string JsVal) (k : string) : Prop :=
  forall v, o !! k = Some v -> is_nullish v = true.

(** "Field [k], default [dflt]". *)
Definition field_or (o : gmap string JsVal) (k : string) (dflt : JsVal)
  : JsVal :=
  match o !! k with
  | Some v => if is_nullish v then dflt else v
  | None => dflt
  end.

End Spec.

(** ** Sample inputs *)

Module Examples.

Import ImageOverlay App.

(** The record [{ class: "person", class_name: "human", score: 0.5 }]. *)
Definition class_and_class_name : gmap string JsVal :=
  {[ "class" := JStr "person"; "class_name" := JStr "human";
     "score" := JNum 0.5 ]}.

(** The record [{ bbox: [], x: 5, y: 6, width: 7, height: 8, w: 9, h: 10 }]. *)
Definition empty_bbox_with_scalars : gmap string JsVal :=
  {[ "bbox" := JArr []; "x" := JNum 5; "y" := JNum 6; "width" := JNum 7;
     "height" := JNum 8; "w" := JNum 9; "h" := JNum 10 ]}.

(** The record [{ bbox: [1, 2, 3, 4], x: 9, y: 9, width: 9, height: 9 }]. *)
Definition bbox_and_scalars : gmap string JsVal :=
  {[ "bbox" := JArr [JNum 1; JNum 2; JNum 3; JNum 4]; "x" := JNum 9;
     "y" := JNum 9; "width" := JNum 9; "height" := JNum 9 ]}.

(** The record [{ x: 3, w: 5, h: 6, bbox: null }]. *)
Definition scalars_only : gmap string JsVal :=
  {[ "x" := JNum 3; "w" := JNum 5; "h" := JNum 6; "bbox" := JNull ]}.

(** The payload [{ detections: [{x: 1}], predictions: [{x: 2}] }]. *)
Definition detections_and_predictions : gmap string JsVal :=
  {[ "detections" := JArr [JObj {[ "x" := JNum 1 ]}];
     "predictions" := JArr [JObj {[ "x" := JNum 2 ]}] ]}.

(** The payload
    [{ results: [{x: 1, y: 1, width: 2, height: 2, score: 0.87}] }]. *)
Definition results_payload : JsVal :=
  JObj {[ "results" :=
            JArr [JObj {[ "x" := JNum 1; "y" := JNum 1; "width" := JNum 2;
                          "height" := JNum 2; "score" := JNum 0.87 ]}] ]}.

(** The box [{x: 10, y: 5, width: 4, height: 2}]. *)
Definition box_10_5_4_2 : BoundingBox :=
  {| x := JNum 10; y := JNum 5; width := JNum 4; height := JNum 2;
     label := JUndefined; confidence := JUndefined |}.

(** A box with confidence 0 and no label. *)
Definition box_zero_confidence : BoundingBox :=
  {| x := JNum 1; y := JNum 1; width := JNum 2; height := JNum 2;
     label := JUndefined; confidence := JNum 0 |}.

Definition imageA : File := mkFile "a.png" 1024.
Definition imageB : File := mkFile "b.png" 2048.

(** An HTTP 500 with body "model error" (which is not JSON). *)
Definition http_500 : Response :=
  {| status := 500; text := Fulfilled "model error";
     json := Rejected (ErrorObj "Unexpected token") |}.

(** An HTTP 200 with body [[[1, 2, 3, 4]]]: the payload is itself an array,
    of one detection. *)
Definition one_detection : JsVal :=
  JArr [JArr [JNum 1; JNum 2; JNum 3; JNum 4]].

Definition http_200 : Response :=
  {| status := 200; text := Fulfilled "[[1, 2, 3, 4]]";
     json := Fulfilled one_detection |}.

(** Upload A, answered by the HTTP 200. *)
Definition succeededA : World :=
  handleImageUpload_settle (Fulfilled http_200)
    (handleImageUpload_begin imageA init).

(** Then clear, and upload B. *)
Definition uploadingB : World :=
  handleImageUpload_begin imageB (handleClear succeededA).

(** The record [{ class: 3 }]. *)
Definition numeric_class : gmap string JsVal := {[ "class" := JNum 3 ]}.

(** The record [{ confidence: 0 }]. *)
Definition zero_confidence_record : gmap string JsVal :=
  {[ "confidence" := JNum 0 ]}.

(** The record [{ label: "cat" }]. *)
Definition labelled_cat : gmap string JsVal := {[ "label" := JStr "cat" ]}.

(** The record [{ x: { toString: 1 } }]. *)
Definition x_own_toString : gmap string JsVal :=
  {[ "x" := JObj {[ "toString" := JNum 1 ]} ]}.

(** The record [{ label: { name: "cat" } }]. *)
Definition object_label : gmap string JsVal :=
  {[ "label" := JObj {[ "name" := JStr "cat" ]} ]}.



End Examples.

(** ** UploadZone.tsx: the drop and file-input handlers *)

Module UploadZoneHandlers.

Import App.

(** An entry of a [FileList]: the file and the [type] the browser reports
    for it. *)
Record PickedFile : Type := mkPicked { type : string; file : File }.

(** [handleDrop]: the value [isDragOver] is set to, and the file
    [onImageUpload] is called with, if it is called.  [files] is
    [e.dataTransfer.files]. *)
Definition handleDrop (files : list PickedFile) : bool * option File :=
  (false,
   match files with
   | f :: _ =>
       if String.prefix "image/" (type f) then Some (file f) else None
   | [] => None
   end).

(** [handleFileSelect]: the file [onImageUpload] is called with, if it is
    called.  [files] is [e.target.files], a [FileList] or [null]. *)
Definition handleFileSelect (files : option (list PickedFile))
  : option File :=
  match files with
  | Some (f :: _) => Some (file f)
  | Some [] | None => None
  end.

(** A drop on the page: [onImageUpload] is [handleImageUpload]. *)
Definition drop (files : list PickedFile) (w : World) : World :=
  match snd (handleDrop files) with
  | Some f => handleImageUpload_begin f w
  | None => w
  end.

(** A choice in the file dialog. *)
Definition select (files : option (list PickedFile)) (w : World) : World :=
  match handleFileSelect files with
  | Some f => handleImageUpload_begin f w
  | None => w
  end.

End UploadZoneHandlers.

(** ** StatusIndicator *)

Module StatusIndicator.

Import App.

Inductive Status : Type := checking | online | offline.

(** The two [useState] cells, and the number of [fetch] calls of
    [checkConnection] that have not settled yet. *)
Record State : Type := mkState {
  status : Status;
  latency : option Z;
  inflight : nat
}.

Definition init : State :=
  {| status := checking; latency := None; inflight := 0 |}.

(** [checkConnection], up to the [await fetch(...)]. *)
Definition checkConnection_begin (s : State) : State :=
  {| status := checking; latency := latency s; inflight := S (inflight s) |}.

(** [checkConnection], from the settling of [fetch] on; [elapsed] is
    [endTime - startTime], in milliseconds. *)
Definition checkConnection_settle (outcome : Settled Response) (elapsed : Z)
    (s : State) : State :=
  match outcome with
  | Fulfilled response =>
      {| status := if ok response then online else offline;
         latency := Some elapsed;
         inflight := pred (inflight s) |}
  | Rejected _ =>
      {| status := offline; latency := None; inflight := pred (inflight s) |}
  end.

(** The latency shown on the right:
    [latency !== null && status === "online"]. *)
Definition shownLatency (s : State) : option Z :=
  match latency s, status s with
  | Some l, online => Some l
  | _, _ => None
  end.

(** [checkConnection] is started on mount, every 30 seconds and by the
    refresh button; an outstanding [fetch] settles. *)
Inductive step : State -> State -> Prop :=
| step_check s : step s (checkConnection_begin s)
| step_settle s outcome elapsed :
    (0 < inflight s)%nat ->
    step s (checkConnection_settle outcome elapsed s).

Definition reachable (s : State) : Prop := rtc step init s.

End StatusIndicator.

(** ** Records that encode one box *)

Module Formats.

Import ImageOverlay.

(** The field names [normalizeBoundingBoxes] reads a box from. *)
Definition box_keys : list string :=
  ["bbox"; "bounding_box"; "coordinates"; "x"; "y"; "width"; "height";
   "w"; "h"].

(** The record [{ x, y, width, height, label, confidence }] made of the
    fields of a box. *)
Definition scalar_record (b : BoundingBox) : gmap string JsVal :=
  {[ "x" := x b; "y" := y b; "width" := width b; "height" := height b;
     "label" := label b; "confidence" := confidence b ]}.

(** The box of a record, field by field: the coordinates from the first
    array field or from the scalars, the label and the confidence from
    their chains of [??]. *)
Definition box_of (o : gmap string JsVal) : BoundingBox :=
  let a := Spec.first_array_field o in
  {| x := match a with
          | Some a => elem a 0
          | None => Spec.field_or o "x" (JNum 0)
          end;
     y := match a with
          | Some a => elem a 1
          | None => Spec.field_or o "y" (JNum 0)
          end;
     width := match a with
              | Some a => elem a 2
              | None => Spec.field_or o "width" (Spec.field_or o "w" (JNum 0))
              end;
     height := match a with
               | Some a => elem a 3
               | None => Spec.field_or o "height" (Spec.field_or o "h" (JNum 0))
               end;
     label := Spec.field_or o "label"
                (Spec.field_or o "class" (prop (JObj o) "class_name"));
     confidence := Spec.field_or o "confidence" (prop (JObj o) "score") |}.

(** No field of the box holds an object. *)
Definition fields_object_free (box : BoundingBox) : Prop :=
  object_free (x box) = true /\ object_free (y box) = true /\
  object_free (width box) = true /\ object_free (height box) = true /\
  object_free (label box) = true /\ object_free (confidence box) = true.

(** A detection that is not [null] or [undefined] and, when it is a record,
    holds no object in any of its fields, at any depth. *)
Definition plain_detection (d : JsVal) : Prop :=
  match d with
  | JUndefined | JNull => False
  | JObj o => map_Forall (fun _ v => object_free v = true) o
  | JBool _ | JNum _ | JStr _ | JArr _ => True
  end.

End Formats.

(** ** Invariants of the running page *)

Module Invariants.

Import App.

(** The preview, the file and the table of object URLs move together. *)
Definition preview_in_step (w : World) : Prop :=
  live w = match previewUrl (app w) with
           | Some u => {[u]}
           | None => ∅
           end /\
  (previewUrl (app w) = None <-> imageFile (app w) = None).

(** While the indicator says online, a latency is stored. *)
Definition online_has_latency (s : StatusIndicator.State) : Prop :=
  StatusIndicator.status s = StatusIndicator.online ->
  is_Some (StatusIndicator.latency s).

(** The indicator says checking only while a [fetch] is outstanding, the
    state before the first check apart. *)
Definition checking_has_fetch (s : StatusIndicator.State) : Prop :=
  StatusIndicator.status s = StatusIndicator.checking ->
  s = StatusIndicator.init \/ (0 < StatusIndicator.inflight s)%nat.

End Invariants.

(** * Properties *)

Import ImageOverlay App DebugPanel Examples.

(** ** Helper lemmas on values *)

Lemma truthy_isArray v : truthy v && isArray v = isArray v.
Proof. destruct v; cbn; auto using andb_false_r. Qed.

Lemma prop_obj o k : prop (JObj o) k = default JUndefined (o !! k).
Proof. reflexivity. Qed.

Lemma nullish_or_assoc a b c :
  nullish_or (nullish_or a b) c = nullish_or a (nullish_or b c).
Proof. unfold nullish_or. by destruct a. Qed.

Lemma field_or_nullish_or o k dflt :
  nullish_or (prop (JObj o) k) dflt = Spec.field_or o k dflt.
Proof.
  unfold Spec.field_or, nullish_or. rewrite prop_obj.
  by destruct (o !! k) as [v|].
Qed.

(** The array test of one field, on the code side and on the
    specification side. *)
Lemma isArray_prop_cases o k :
  (exists a, Spec.array_field o k = Some a /\ prop (JObj o) k = JArr a)
  \/ (Spec.array_field o k = None /\ isArray (prop (JObj o) k) = false).
Proof.
  unfold Spec.array_field. rewrite prop_obj.
  destruct (o !! k) as [[]|]; cbn; eauto.
Qed.

Ltac case_array_field o k :=
  let a := fresh "a" in
  destruct (isArray_prop_cases o k) as [(a & -> & ->) | (-> & ->)].

Lemma normalizeDetection_bbox o a :
  o !! "bbox" = Some (JArr a) ->
  normalizeDetection (JObj o) =
  Some {| x := elem a 0; y := elem a 1; width := elem a 2; height := elem a 3;
          label := nullish_or (nullish_or (prop (JObj o) "label")
                                          (prop (JObj o) "class"))
                              (prop (JObj o) "class_name");
          confidence := nullish_or (prop (JObj o) "confidence")
                                   (prop (JObj o) "score") |}.
Proof.
  intros E. unfold normalizeDetection. cbn [is_nullish].
  rewrite (prop_obj o "bbox"), E. reflexivity.
Qed.

(** ** DetectionNormalizer *)

(** C1. For every raw detection record the four coordinates come from one
    source only: the first of the array fields [bbox], [bounding_box],
    [coordinates] that holds an array, read positionally as
    [[x, y, width, height]] whatever other fields the record has; and only
    when none of the three holds an array, the scalar fields [x] (default
    0), [y] (default 0), [width] (default [w], else 0) and [height]
    (default [h], else 0). *)
Theorem normalize_box_precedence (o : gmap string JsVal) :
  exists b, normalizeDetection (JObj o) = Some b /\
    match Spec.first_array_field o with
    | Some a =>
        x b = elem a 0 /\ y b = elem a 1 /\
        width b = elem a 2 /\ height b = elem a 3
    | None =>
        x b = Spec.field_or o "x" (JNum 0) /\
        y b = Spec.field_or o "y" (JNum 0) /\
        width b = Spec.field_or o "width" (Spec.field_or o "w" (JNum 0)) /\
        height b = Spec.field_or o "height" (Spec.field_or o "h" (JNum 0))
    end.
Proof.
  unfold normalizeDetection, Spec.first_array_field.
  cbn [is_nullish Spec.first_array_among].
  rewrite !truthy_isArray.
  case_array_field o "bbox"; [cbn; eauto 10|].
  case_array_field o "bounding_box"; [cbn; eauto 10|].
  case_array_field o "coordinates"; [cbn; eauto 10|].
  rewrite !nullish_or_assoc, !field_or_nullish_or. cbn. eauto 10.
Qed.

Lemma normalize_box_precedence_witness :
  (exists b, normalizeDetection (JObj bbox_and_scalars) = Some b /\
     x b = JNum 1 /\ y b = JNum 2 /\ width b = JNum 3 /\ height b = JNum 4) /\
  (exists b, normalizeDetection (JObj scalars_only) = Some b /\
     x b = JNum 3 /\ y b = JNum 0 /\ width b = JNum 5 /\ height b = JNum 6).
Proof.
  split.
  - destruct (normalize_box_precedence bbox_and_scalars) as (b & Hb & H).
    vm_compute in H. eauto.
  - destruct (normalize_box_precedence scalars_only) as (b & Hb & H).
    vm_compute in H. eauto.
Defined.

Lemma nullish_or_present o k v dflt :
  Spec.present o k v -> nullish_or (prop (JObj o) k) dflt = v.
Proof.
  intros [E N]. unfold nullish_or. rewrite prop_obj, E. cbn. by rewrite N.
Qed.

Lemma nullish_or_absent o k dflt :
  Spec.absent o k -> nullish_or (prop (JObj o) k) dflt = dflt.
Proof.
  intros A. unfold nullish_or. rewrite prop_obj.
  destruct (o !! k) as [v|] eqn:E; cbn; [|done].
  by rewrite (A v E).
Qed.

Lemma prop_absent_nullish o k :
  Spec.absent o k -> is_nullish (prop (JObj o) k) = true.
Proof.
  intros A. rewrite prop_obj.
  destruct (o !! k) as [v|] eqn:E; cbn; [|done]. exact (A v E).
Qed.

(** C5. For every raw detection record the label of the canonical box is
    the first present of [label], [class], [class_name], and it is absent
    when none is present; the confidence is the first present of
    [confidence], [score], and absent when neither is.  In particular a
    record with [class] and [class_name] and no [label] gets the value of
    [class]. *)
Theorem normalize_label_confidence_precedence (o : gmap string JsVal) :
  exists b, normalizeDetection (JObj o) = Some b /\
    (forall v, Spec.present o "label" v -> label b = v) /\
    (forall v, Spec.absent o "label" -> Spec.present o "class" v ->
               label b = v) /\
    (forall v, Spec.absent o "label" -> Spec.absent o "class" ->
               Spec.present o "class_name" v -> label b = v) /\
    (Spec.absent o "label" -> Spec.absent o "class" ->
     Spec.absent o "class_name" -> is_nullish (label b) = true) /\
    (forall v, Spec.present o "confidence" v -> confidence b = v) /\
    (forall v, Spec.absent o "confidence" -> Spec.present o "score" v ->
               confidence b = v) /\
    (Spec.absent o "confidence" -> Spec.absent o "score" ->
     is_nullish (confidence b) = true).
Proof.
  unfold normalizeDetection. cbn [is_nullish].
  destruct (if truthy (prop (JObj o) "bbox") && _ then _ else _)
    as [[[bx by_] bw] bh].
  eexists. split; [reflexivity|]. cbn [label confidence].
  rewrite nullish_or_assoc.
  repeat split.
  - intros v P. by apply nullish_or_present.
  - intros v A P. rewrite nullish_or_absent by done.
    by apply nullish_or_present.
  - intros v A A' P. rewrite !nullish_or_absent by done.
    destruct P as [E N]. by rewrite prop_obj, E.
  - intros A A' A''. rewrite !nullish_or_absent by done.
    by apply prop_absent_nullish.
  - intros v P. by apply nullish_or_present.
  - intros v A P. rewrite nullish_or_absent by done.
    destruct P as [E N]. by rewrite prop_obj, E.
  - intros A A'. rewrite nullish_or_absent by done.
    by apply prop_absent_nullish.
Qed.

Lemma normalize_label_confidence_precedence_witness :
  exists b, normalizeDetection (JObj class_and_class_name) = Some b /\
            label b = JStr "person" /\ confidence b = JNum 0.5.
Proof.
  destruct (normalize_label_confidence_precedence class_and_class_name)
    as (b & Hb & _ & Hclass & _ & _ & _ & Hscore & _).
  exists b. split; [exact Hb|]. split.
  - apply Hclass.
    + intros v E. vm_compute in E. discriminate E.
    + split; [vm_compute; reflexivity | reflexivity].
  - apply Hscore.
    + intros v E. vm_compute in E. discriminate E.
    + split; [vm_compute; reflexivity | reflexivity].
Defined.

(** C9. For every raw detection record whose [bbox] is an array of fewer
    than four elements, the components past the end of the array are
    [undefined] in the canonical box (they are not defaulted to 0), and the
    scalar fields [x], [y], [width], [height], [w], [h] are ignored:
    whatever values they are given, the canonical box is the same. *)
Theorem normalize_short_bbox (o : gmap string JsVal) (a : list JsVal) :
  o !! "bbox" = Some (JArr a) ->
  (length a < 4)%nat ->
  exists b, normalizeDetection (JObj o) = Some b /\
    ((length a <= 0)%nat -> x b = JUndefined) /\
    ((length a <= 1)%nat -> y b = JUndefined) /\
    ((length a <= 2)%nat -> width b = JUndefined) /\
    height b = JUndefined /\
    forall vx vy vw vh vw' vh',
      normalizeDetection
        (JObj (<["x" := vx]> (<["y" := vy]> (<["width" := vw]>
              (<["height" := vh]> (<["w" := vw']> (<["h" := vh']> o)))))))
      = Some b.
Proof.
  intros E L. rewrite (normalizeDetection_bbox o a E).
  eexists. split; [reflexivity|]. cbn [x y width height].
  unfold elem.
  repeat split.
  - intros H. by rewrite lookup_ge_None_2.
  - intros H. by rewrite lookup_ge_None_2.
  - intros H. by rewrite lookup_ge_None_2.
  - rewrite lookup_ge_None_2; [done | lia].
  - intros. rewrite (normalizeDetection_bbox _ a).
    + rewrite !prop_obj. by rewrite !lookup_insert_ne.
    + by rewrite !lookup_insert_ne.
Qed.

Lemma normalize_short_bbox_witness :
  exists b, normalizeDetection (JObj empty_bbox_with_scalars) = Some b /\
            x b = JUndefined /\ y b = JUndefined /\
            width b = JUndefined /\ height b = JUndefined.
Proof.
  destruct (normalize_short_bbox empty_bbox_with_scalars [])
    as (b & Hb & Hx & Hy & Hw & Hh & _).
  - vm_compute. reflexivity.
  - cbn. lia.
  - exists b. split; [exact Hb|].
    split; [apply Hx; cbn; lia|].
    split; [apply Hy; cbn; lia|].
    split; [apply Hw; cbn; lia|].
    exact Hh.
Defined.

(** ** ResponseShapeResolver *)

Lemma getDetections_obj o :
  getDetections (JObj o) =
  match Spec.first_array_among o
          ["detections"; "predictions"; "results"; "boxes"] with
  | Some a => JArr a
  | None => JNull
  end.
Proof.
  unfold getDetections. cbn [truthy negb isArray Spec.first_array_among].
  case_array_field o "detections"; [done|].
  case_array_field o "predictions"; [done|].
  case_array_field o "results"; [done|].
  by case_array_field o "boxes".
Qed.

(** C2. For every analysis result payload, [getDetections] returns the
    first array found among the fields [detections], [predictions],
    [results], [boxes], in that order; else the payload itself when it is an
    array; else [null], without raising anything.  In particular, when
    [detections] and [predictions] both hold arrays, the [detections] array
    is returned. *)
Theorem getDetections_priority (payload : JsVal) :
  getDetections payload = Spec.resolve payload /\
  forall o a p,
    payload = JObj o ->
    o !! "detections" = Some (JArr a) ->
    o !! "predictions" = Some (JArr p) ->
    getDetections payload = JArr a.
Proof.
  split.
  - destruct payload; try reflexivity.
    + unfold getDetections. cbn. by destruct (negb b).
    + unfold getDetections. cbn. by destruct (negb (num_truthy n)).
    + unfold getDetections. cbn. by destruct (negb (negb (String.eqb s ""))).
    + apply getDetections_obj.
  - intros o a p -> Ed Ep. rewrite getDetections_obj.
    cbn [Spec.first_array_among]. unfold Spec.array_field. by rewrite Ed.
Qed.

Lemma getDetections_priority_witness :
  getDetections (JObj detections_and_predictions)
  = JArr [JObj {[ "x" := JNum 1 ]}].
Proof.
  refine (proj2 (getDetections_priority (JObj detections_and_predictions))
                detections_and_predictions _ [JObj {[ "x" := JNum 2 ]}]
                eq_refl _ _); vm_compute; reflexivity.
Defined.

(** ** CoordinateProjector *)

(** Comparisons of IEEE numbers with zero. *)
Lemma pos_num_truthy (n : float) :
  (0 <? n)%float = true -> num_truthy n = true.
Proof.
  unfold num_truthy, is_zero, is_nan.
  rewrite FloatAxioms.ltb_spec, !FloatAxioms.eqb_spec.
  change (Prim2SF zero) with (S754_zero false).
  change (Prim2SF 0) with (S754_zero false).
  destruct (Prim2SF n) as [[]|[]| |[] m e]; try done.
  intros _. unfold SFeqb, SFcompare.
  by rewrite Z.compare_refl, Pos.compare_cont_refl.
Qed.

Lemma zero_num_falsy (n : float) :
  (n =? 0)%float = true -> num_truthy n = false.
Proof. intros H. unfold num_truthy, is_zero, zero. by rewrite H. Qed.

Lemma num_or_pos (n d : float) : (0 <? n)%float = true -> num_or n d = n.
Proof. intros H. unfold num_or. by rewrite pos_num_truthy. Qed.

Lemma num_or_zero (n d : float) : (n =? 0)%float = true -> num_or n d = d.
Proof. intros H. unfold num_or. by rewrite zero_num_falsy. Qed.

(** The divisor [n || 1] is never zero. *)
Lemma num_or_one_nonzero (n : float) : (num_or n 1 =? 0)%float = false.
Proof.
  unfold num_or, num_truthy, is_zero, zero.
  destruct (n =? 0)%float eqn:E; [reflexivity|].
  destruct (is_nan n); [reflexivity | exact E].
Qed.

(** C3. For every box with numeric coordinates and every geometry with
    [naturalWidth > 0] and [naturalHeight > 0], the scale factors are
    [scaleX = renderedWidth / naturalWidth] and
    [scaleY = renderedHeight / naturalHeight], and the drawn rectangle has
    [x] and [width] multiplied by [scaleX], [y] and [height] multiplied by
    [scaleY]. *)
Theorem project_scales_box (bx by_ bw bh : float) (lbl conf : JsVal)
    (imageDimensions naturalDimensions : Size.t) (index : nat) :
  (0 <? Size.width naturalDimensions)%float = true ->
  (0 <? Size.height naturalDimensions)%float = true ->
  let sx := scaleX imageDimensions naturalDimensions in
  let sy := scaleY imageDimensions naturalDimensions in
  let r := renderBox sx sy index
             {| x := JNum bx; y := JNum by_; width := JNum bw;
                height := JNum bh; label := lbl; confidence := conf |} in
  sx = (Size.width imageDimensions / Size.width naturalDimensions)%float /\
  sy = (Size.height imageDimensions / Size.height naturalDimensions)%float /\
  scaledX r = Some (bx * sx)%float /\
  scaledY r = Some (by_ * sy)%float /\
  scaledWidth r = Some (bw * sx)%float /\
  scaledHeight r = Some (bh * sy)%float.
Proof.
  intros Hw Hh. cbn zeta. unfold scaleX, scaleY.
  rewrite (num_or_pos _ _ Hw), (num_or_pos _ _ Hh).
  repeat split.
Qed.

(** With [scaleX = 2] and [scaleY = 3] the box
    [{x: 10, y: 5, width: 4, height: 2}] is drawn at
    [{x: 20, y: 15, width: 8, height: 6}]. *)
Lemma project_scales_box_witness :
  let r := renderBox (scaleX (Size.mk 200 300) (Size.mk 100 100))
                     (scaleY (Size.mk 200 300) (Size.mk 100 100)) 0
                     box_10_5_4_2 in
  scaleX (Size.mk 200 300) (Size.mk 100 100) = 2%float /\
  scaleY (Size.mk 200 300) (Size.mk 100 100) = 3%float /\
  scaledX r = Some 20%float /\ scaledY r = Some 15%float /\
  scaledWidth r = Some 8%float /\ scaledHeight r = Some 6%float.
Proof.
  exact (project_scales_box 10 5 4 2 JUndefined JUndefined
           (Size.mk 200 300) (Size.mk 100 100) 0 eq_refl eq_refl).
Defined.

(** With [naturalWidth = 0] and a rendered width of 640 the horizontal
    scale factor is 640, not 1. *)
Lemma scaleX_zero_natural_not_one :
  (Size.width (Size.mk 0 0) =? 0)%float = true /\
  scaleX (Size.mk 640 480) (Size.mk 0 0) <> 1%float.
Proof.
  split; [reflexivity|].
  intros H. apply (f_equal (fun s => (s =? 640)%float)) in H.
  vm_compute in H. discriminate H.
Qed.

(** C4, as the code has it.  For every geometry the divisor of a scale
    factor is never zero; with [naturalWidth = 0] the divisor of [scaleX]
    is 1, so that [scaleX] is [renderedWidth / 1]; and likewise for
    [naturalHeight = 0] and [scaleY]. *)
Theorem scale_guard_zero_natural
    (imageDimensions naturalDimensions : Size.t) :
  (num_or (Size.width naturalDimensions) 1 =? 0)%float = false /\
  (num_or (Size.height naturalDimensions) 1 =? 0)%float = false /\
  ((Size.width naturalDimensions =? 0)%float = true ->
   num_or (Size.width naturalDimensions) 1 = 1%float /\
   scaleX imageDimensions naturalDimensions
   = (Size.width imageDimensions / 1)%float) /\
  ((Size.height naturalDimensions =? 0)%float = true ->
   num_or (Size.height naturalDimensions) 1 = 1%float /\
   scaleY imageDimensions naturalDimensions
   = (Size.height imageDimensions / 1)%float).
Proof.
  split; [apply num_or_one_nonzero|].
  split; [apply num_or_one_nonzero|].
  unfold scaleX, scaleY.
  split; intros H; by rewrite (num_or_zero _ _ H).
Qed.

Lemma scale_guard_zero_natural_witness :
  scaleX (Size.mk 640 480) (Size.mk 0 0) = 640%float /\
  scaleY (Size.mk 640 480) (Size.mk 0 0) = 480%float.
Proof.
  destruct (scale_guard_zero_natural (Size.mk 640 480) (Size.mk 0 0))
    as (_ & _ & Hx & Hy).
  split.
  - destruct Hx as [_ Hx]; [reflexivity|]. rewrite Hx. reflexivity.
  - destruct Hy as [_ Hy]; [reflexivity|]. rewrite Hy. reflexivity.
Defined.

(** ** OverlayRenderer *)

Lemma renderBoxes_lookup sx sy boxes i :
  renderBoxes sx sy boxes !! i = renderBox sx sy i <$> boxes !! i.
Proof. unfold renderBoxes. apply list_lookup_imap. Qed.

Lemma COLORS_lookup_mod i : is_Some (COLORS !! (i mod length COLORS)).
Proof.
  apply lookup_lt_is_Some. apply Nat.mod_upper_bound. cbn. lia.
Qed.

Lemma renderBoxes_colors sx sy boxes :
  color <$> renderBoxes sx sy boxes
  = (fun i => COLORS !! (i mod 5)) <$> seq 0 (length boxes).
Proof.
  apply list_eq. intros i.
  rewrite !list_lookup_fmap, renderBoxes_lookup.
  destruct (boxes !! i) as [b|] eqn:E.
  - rewrite lookup_seq_lt by (by eapply lookup_lt_Some). reflexivity.
  - rewrite lookup_seq_ge by (by apply lookup_ge_None). reflexivity.
Qed.

(** C6. The palette is a fixed list of 5 distinct colours, and for every
    list of boxes the box at 0-based index [i] is drawn in
    [COLORS[i mod 5]].  Hence the colours depend on nothing but the length
    of the list (two renders of lists of one length, under any geometry,
    give the same colour at every index), and in a list of 7 or more boxes
    the boxes at indices 0 and 5 have the same colour. *)
Theorem color_by_index_mod_palette :
  length COLORS = 5%nat /\ NoDup COLORS /\
  (forall sx sy boxes i, (i < length boxes)%nat ->
     exists c, COLORS !! (i mod 5) = Some c /\
               color <$> renderBoxes sx sy boxes !! i = Some (Some c)) /\
  (forall sx sy sx' sy' boxes boxes', length boxes = length boxes' ->
     color <$> renderBoxes sx sy boxes
     = color <$> renderBoxes sx' sy' boxes') /\
  (forall sx sy boxes, (7 <= length boxes)%nat ->
     exists c, color <$> renderBoxes sx sy boxes !! 0%nat = Some (Some c) /\
               color <$> renderBoxes sx sy boxes !! 5%nat = Some (Some c)).
Proof.
  assert (At : forall sx sy boxes i, (i < length boxes)%nat ->
     exists c, COLORS !! (i mod 5) = Some c /\
               color <$> renderBoxes sx sy boxes !! i = Some (Some c)).
  { intros sx sy boxes i Hi.
    destruct (COLORS_lookup_mod i) as [c Hc]. exists c. split; [exact Hc|].
    rewrite renderBoxes_lookup.
    destruct (lookup_lt_is_Some_2 boxes i Hi) as [b ->]. cbn.
    by rewrite <- Hc. }
  split; [reflexivity|]. split.
  { apply (bool_decide_unpack (NoDup COLORS)). vm_compute. exact I. }
  split; [exact At|]. split.
  - intros sx sy sx' sy' boxes boxes' L.
    by rewrite !renderBoxes_colors, L.
  - intros sx sy boxes L.
    destruct (At sx sy boxes 0%nat) as (c & Hc & H0); [lia|].
    destruct (At sx sy boxes 5%nat) as (c' & Hc' & H5); [lia|].
    exists c. split; [exact H0|]. rewrite H5.
    change (COLORS !! (5 mod 5)) with (COLORS !! (0 mod 5)) in Hc'.
    congruence.
Qed.

Lemma color_by_index_mod_palette_witness :
  let boxes := replicate 7 box_10_5_4_2 in
  color <$> renderBoxes 1 1 boxes !! 0%nat = Some (Some "hsl(25, 100%, 50%)") /\
  color <$> renderBoxes 1 1 boxes !! 5%nat = Some (Some "hsl(25, 100%, 50%)").
Proof.
  intros boxes.
  destruct color_by_index_mod_palette as (_ & _ & _ & _ & H).
  destruct (H 1%float 1%float boxes) as (c & H0 & H5); [cbn; lia|].
  assert (c = "hsl(25, 100%, 50%)") as -> by (cbn in H0; congruence).
  split; [reflexivity | exact H5].
Defined.

Lemma render_Some_inv ds imageDimensions naturalDimensions anns b :
  render (Some ds) imageDimensions naturalDimensions = Some (anns, b) ->
  exists boxes,
    normalizeBoundingBoxes ds = Some boxes /\
    existsb (fun t => t) (imap boxThrows boxes) = false /\
    anns = renderBoxes (scaleX imageDimensions naturalDimensions)
                       (scaleY imageDimensions naturalDimensions) boxes /\
    b = badge boxes.
Proof.
  unfold render, throws.
  destruct (normalizeBoundingBoxes ds) as [boxes|]; [|done].
  destruct (existsb _ _) eqn:E; [done|]. cbn. intros [= <- <-]. eauto.
Qed.

Lemma chipShown_truthy (box : BoundingBox) :
  chipShown box = true <->
  truthy (label box) = true \/ confidence box <> JUndefined.
Proof.
  unfold chipShown. rewrite orb_true_iff, negb_true_iff.
  assert (C : is_undefined (confidence box) = false <->
              confidence box <> JUndefined).
  { by destruct (confidence box). }
  by rewrite C.
Qed.

Lemma renderBox_chip (sx sy : float) (index : nat) (box : BoundingBox) :
  (chip (renderBox sx sy index box) <> None <->
   truthy (label box) = true \/ confidence box <> JUndefined) /\
  (forall s, label box = JStr s -> (truthy (label box) = true <-> s <> "")) /\
  (is_nullish (label box) = true -> confidence box = JNum 0 ->
   chip (renderBox sx sy index box)
   = Some (Some ("Detection " ++ dec (index + 1) ++ " 0%"))) /\
  (label box = JStr "" -> confidence box = JUndefined ->
   chip (renderBox sx sy index box) = None).
Proof.
  cbn [renderBox chip]. split; [|split; [|split]].
  - rewrite <- chipShown_truthy. by destruct (chipShown box).
  - intros s ->. cbn.
    destruct (String.eqb_spec s "") as [-> | N]; cbn; split; done.
  - intros L C. unfold chipShown, chipText, chipLabelChild,
      chipConfidenceChild. rewrite C.
    destruct (label box); try discriminate L; reflexivity.
  - intros L C. unfold chipShown. by rewrite L, C.
Qed.

(** With [{ class: 3 }] the label of the box is the number 3: the overlay
    renders, and the box gets a chip although its label is not a string
    and it has no confidence.  With [{ label: "cat" }] followed by [null]
    the label of the first box is a non-empty string, and the render
    throws: no chip is drawn for it. *)
Lemma numeric_class_label_gets_chip :
  (exists ann b box,
     render (Some [JObj numeric_class]) (Size.mk 200 300) (Size.mk 100 100)
     = Some ([ann], b) /\
     normalizeDetection (JObj numeric_class) = Some box /\
     chip ann <> None /\
     label box = JNum 3 /\
     (forall s, label box <> JStr s) /\
     confidence box = JUndefined) /\
  (exists box,
     normalizeDetection (JObj labelled_cat) = Some box /\
     label box = JStr "cat" /\
     render (Some [JObj labelled_cat; JNull])
            (Size.mk 200 300) (Size.mk 100 100) = None).
Proof.
  split.
  - eexists _, _, _. split; [reflexivity|]. split; [reflexivity|].
    cbn. by repeat split.
  - eexists. split; [reflexivity|]. split; reflexivity.
Qed.

(** C10, as the code has it.  Whenever the overlay renders, the box at
    index [i] gets a label chip exactly when its label is truthy or its
    confidence is not [undefined]; for a label that is a string, truthy
    means non-empty.  A box with confidence exactly 0 and no label ([null]
    or [undefined]) gets the chip text "Detection {i+1} 0%"; a box whose
    label is the empty string and whose confidence is absent gets no
    chip. *)
Theorem chip_rendered_iff_truthy (ds : list JsVal)
    (imageDimensions naturalDimensions : Size.t)
    (anns : list Annotation) (b : option string) (i : nat)
    (ann : Annotation) :
  render (Some ds) imageDimensions naturalDimensions = Some (anns, b) ->
  anns !! i = Some ann ->
  exists d box,
    ds !! i = Some d /\ normalizeDetection d = Some box /\
    (chip ann <> None <->
     truthy (label box) = true \/ confidence box <> JUndefined) /\
    (forall s, label box = JStr s ->
       (truthy (label box) = true <-> s <> "")) /\
    (is_nullish (label box) = true -> confidence box = JNum 0 ->
     chip ann = Some (Some ("Detection " ++ dec (i + 1) ++ " 0%"))) /\
    (label box = JStr "" -> confidence box = JUndefined ->
     chip ann = None).
Proof.
  intros R A.
  destruct (render_Some_inv _ _ _ _ _ R) as (boxes & N & _ & -> & _).
  rewrite renderBoxes_lookup in A.
  destruct (boxes !! i) as [box|] eqn:B; [|discriminate A].
  injection A as <-.
  unfold normalizeBoundingBoxes in N. apply mapM_Some in N.
  destruct (Forall2_lookup_r _ _ _ _ _ N B) as (d & Hd & Hn).
  exists d, box. split; [exact Hd|]. split; [exact Hn|].
  apply renderBox_chip.
Qed.

Lemma chip_rendered_iff_truthy_witness :
  exists anns b ann,
    render (Some [JObj zero_confidence_record])
           (Size.mk 200 300) (Size.mk 100 100) = Some (anns, b) /\
    anns !! 0%nat = Some ann /\
    chip ann = Some (Some "Detection 1 0%").
Proof.
  destruct (render (Some [JObj zero_confidence_record])
                   (Size.mk 200 300) (Size.mk 100 100))
    as [[anns b]|] eqn:R; [|vm_compute in R; discriminate R].
  pose proof R as R'. vm_compute in R'. injection R' as <- <-.
  eexists _, _, _. split; [reflexivity|]. split; [reflexivity|].
  destruct (chip_rendered_iff_truthy _ _ _ _ _ 0%nat _ R eq_refl)
    as (d & box & Hd & Hn & _ & _ & H & _).
  injection Hd as <-. vm_compute in Hn. injection Hn as <-.
  apply H; reflexivity.
Defined.

(** ** UploadPipeline *)

Lemma append_assoc (s1 s2 s3 : string) : (s1 ++ s2) ++ s3 = s1 ++ s2 ++ s3.
Proof.
  induction s1 as [|c s1 IH]; [reflexivity|].
  change (String c ((s1 ++ s2) ++ s3) = String c (s1 ++ s2 ++ s3)).
  by rewrite IH.
Qed.

Lemma append_empty_r (s : string) : s ++ "" = s.
Proof.
  induction s as [|c s IH]; [reflexivity|].
  change (String c (s ++ "") = String c s). by rewrite IH.
Qed.

Lemma pipelineState_begin file w :
  pipelineState (app (handleImageUpload_begin file w)) = Uploading.
Proof. reflexivity. Qed.

Lemma try_block_http_error res body :
  ok res = false -> text res = Fulfilled body ->
  try_block (Fulfilled res)
  = Rejected (ErrorObj ("HTTP " ++ dec (status res) ++ ": " ++ body)).
Proof. intros O T. unfold try_block. by rewrite O, T. Qed.

Lemma try_block_http_error_rejected res :
  ok res = false -> exists err, try_block (Fulfilled res) = Rejected err.
Proof.
  intros O. unfold try_block. rewrite O. cbn.
  destruct (text res) as [body | err]; eauto.
Qed.

(** C7. For every response of the analysis service whose status is not a
    success status, the pipeline leaves Uploading without storing a result,
    so it is never Succeeded, whatever the body; and when the body text is
    [body] it is Failed with the message
    ["HTTP " ++ status ++ ": " ++ body], which contains the status code and
    the body text. *)
Theorem http_error_status_fails (w : World) (file : File) (res : Response) :
  ok res = false ->
  let w1 := handleImageUpload_begin file w in
  let w2 := handleImageUpload_settle (Fulfilled res) w1 in
  pipelineState (app w1) = Uploading /\
  response (app w2) = JNull /\
  (forall r, pipelineState (app w2) <> Succeeded r) /\
  forall body, text res = Fulfilled body ->
    let msg := "HTTP " ++ dec (status res) ++ ": " ++ body in
    pipelineState (app w2) = Failed msg /\
    error (app w2) = Some msg /\
    Spec.contains msg (dec (status res)) /\
    Spec.contains msg body.
Proof.
  intros O w1 w2. split; [reflexivity|].
  subst w2. unfold handleImageUpload_settle, pipelineState.
  split; [|split].
  - destruct (try_block_http_error_rejected res O) as [err ->]. reflexivity.
  - destruct (try_block_http_error_rejected res O) as [err ->]. cbn.
    intros r. destruct (negb (message_of err =? "")); discriminate.
  - intros body T. rewrite (try_block_http_error res body O T).
    split; [reflexivity|]. split; [reflexivity|]. split.
    + exists "HTTP ", (": " ++ body). reflexivity.
    + exists ("HTTP " ++ dec (status res) ++ ": "), "".
      by rewrite append_empty_r, !append_assoc.
Qed.

Lemma http_error_status_fails_witness :
  pipelineState
    (app (handleImageUpload_settle (Fulfilled http_500)
            (handleImageUpload_begin imageB init)))
  = Failed "HTTP 500: model error".
Proof.
  destruct (http_error_status_fails init imageB http_500 eq_refl)
    as (_ & _ & _ & H).
  exact (proj1 (H "model error" eq_refl)).
Defined.

Import Pipeline.

Lemma controls_upload_no_preview (a : AppState) :
  UploadControl ∈ controls a -> previewUrl a = None.
Proof.
  unfold controls, UploadZone.controls.
  destruct (overlayShown a).
  - destruct (ImageOverlay.throws _); intros H; [by apply elem_of_nil in H|].
    apply list_elem_of_singleton in H. discriminate H.
  - destruct (previewUrl a) as [u|]; [|done].
    intros H. apply list_elem_of_singleton in H. discriminate H.
Qed.



Lemma reachable_uploadingB : reachable uploadingB.
Proof.
  unfold reachable, uploadingB.
  eapply rtc_r; [eapply rtc_r; [eapply rtc_r; [eapply rtc_once|]|]|].
  - apply (step_upload init imageA). by apply list_elem_of_singleton.
  - apply (step_settle _ (Fulfilled http_200)); [reflexivity | cbn; lia].
  - apply step_clear. by apply list_elem_of_singleton.
  - apply step_upload. by apply list_elem_of_singleton.
Defined.




(** ** The whole chain on one payload *)

(** The payload [{ results: [{x: 1, y: 1, width: 2, height: 2, score: 0.87}] }]
    drawn on a 200x300 rendering of a 100x100 image: one rectangle, with
    the chip "Detection 1 87%", and the badge "1 detection". *)
Example render_results_payload :
  render (Some (elems_of (getDetections results_payload)))
         (Size.mk 200 300) (Size.mk 100 100)
  = Some ([ {| color := Some "hsl(25, 100%, 50%)";
               scaledX := Some 2%float; scaledY := Some 3%float;
               scaledWidth := Some 4%float; scaledHeight := Some 6%float;
               chip := Some (Some "Detection 1 87%") |} ],
          Some "1 detection").
Proof. vm_compute. reflexivity. Qed.

(** * Further properties of the code *)

Import Invariants.

(** ** [normalizeBoundingBoxes] on whole lists and on unusual records *)

Lemma normalizeDetection_None (d : JsVal) :
  normalizeDetection d = None <-> is_nullish d = true.
Proof.
  unfold normalizeDetection. destruct (is_nullish d); [done|].
  destruct (if truthy (prop d "bbox") && _ then _ else _) as [[[? ?] ?] ?].
  split; discriminate.
Qed.

Lemma normalizeDetection_obj (o : gmap string JsVal) :
  normalizeDetection (JObj o) = Some (Formats.box_of o).
Proof.
  unfold normalizeDetection, Formats.box_of, Spec.first_array_field.
  cbn [is_nullish Spec.first_array_among].
  rewrite !truthy_isArray, !nullish_or_assoc, !field_or_nullish_or.
  case_array_field o "bbox"; [reflexivity|].
  case_array_field o "bounding_box"; [reflexivity|].
  case_array_field o "coordinates"; reflexivity.
Qed.

Lemma normalizeBoundingBoxes_is_Some (ds : list JsVal) :
  is_Some (normalizeBoundingBoxes ds) <->
  Forall (fun d => is_nullish d = false) ds.
Proof.
  unfold normalizeBoundingBoxes.
  rewrite mapM_is_Some. apply Forall_iff. intros d. unfold compose.
  rewrite <- not_eq_None_Some, normalizeDetection_None.
  by destruct (is_nullish d).
Qed.

Lemma normalizeBoundingBoxes_length (ds : list JsVal) (bs : list BoundingBox) :
  normalizeBoundingBoxes ds = Some bs -> length bs = length ds.
Proof.
  unfold normalizeBoundingBoxes. intros H. apply mapM_Some in H.
  symmetry. by eapply Forall2_length.
Qed.

(** X1. [normalizeBoundingBoxes] succeeds exactly on the lists without a
    [null] or [undefined] element (one such element makes the whole call
    throw); when it succeeds the result has one box per detection, in
    order, each the normalisation of its detection. *)
Theorem normalizeBoundingBoxes_all_or_nothing (ds : list JsVal) :
  (is_Some (normalizeBoundingBoxes ds) <->
   Forall (fun d => is_nullish d = false) ds) /\
  (forall bs, normalizeBoundingBoxes ds = Some bs ->
     length bs = length ds /\
     forall i d, ds !! i = Some d ->
       exists b, bs !! i = Some b /\ normalizeDetection d = Some b).
Proof.
  split; [apply normalizeBoundingBoxes_is_Some|].
  intros bs H. split; [by apply normalizeBoundingBoxes_length|].
  unfold normalizeBoundingBoxes in H. apply mapM_Some in H.
  intros i d Hd.
  destruct (Forall2_lookup_l _ _ _ _ _ H Hd) as (b & Hb & Hn). eauto.
Qed.

Lemma normalizeBoundingBoxes_all_or_nothing_witness :
  normalizeBoundingBoxes [JObj bbox_and_scalars; JNull] = None /\
  exists bs, normalizeBoundingBoxes [JObj bbox_and_scalars; JObj scalars_only]
             = Some bs /\ length bs = 2%nat.
Proof.
  split.
  - destruct (normalizeBoundingBoxes_all_or_nothing
                [JObj bbox_and_scalars; JNull]) as [[H _] _].
    destruct (normalizeBoundingBoxes _) as [bs|]; [|reflexivity].
    assert (F : Forall (fun d => is_nullish d = false)
                       [JObj bbox_and_scalars; JNull]) by (apply H; eauto).
    apply Forall_cons in F as [_ F]. apply Forall_cons in F as [F _].
    discriminate F.
  - destruct (normalizeBoundingBoxes_all_or_nothing
                [JObj bbox_and_scalars; JObj scalars_only]) as [[_ H] L].
    destruct H as [bs Hbs]; [by repeat constructor|].
    exists bs. split; [exact Hbs|]. exact (proj1 (L bs Hbs)).
Defined.

(** X2. A detection that is neither an object nor [null]/[undefined] (a
    number, a boolean, a string, or a bare array such as [[1, 2, 3, 4]])
    is accepted and becomes the all-default box: coordinates 0, no label,
    no confidence. *)
Theorem normalize_non_object_defaults (d : JsVal) :
  is_nullish d = false ->
  (forall o, d <> JObj o) ->
  normalizeDetection d
  = Some {| x := JNum 0; y := JNum 0; width := JNum 0; height := JNum 0;
            label := JUndefined; confidence := JUndefined |}.
Proof.
  intros N O. destruct d; try discriminate N; try reflexivity.
  by destruct (O props).
Qed.

Lemma normalize_non_object_defaults_witness :
  normalizeDetection (JArr [JNum 1; JNum 2; JNum 3; JNum 4])
  = Some {| x := JNum 0; y := JNum 0; width := JNum 0; height := JNum 0;
            label := JUndefined; confidence := JUndefined |}.
Proof.
  apply normalize_non_object_defaults; [reflexivity | discriminate].
Defined.

(** ** The accepted formats agree *)

Lemma box_keys_free (o : gmap string JsVal) :
  Forall (fun k => o !! k = None) Formats.box_keys ->
  o !! "bbox" = None /\ o !! "bounding_box" = None /\
  o !! "coordinates" = None /\ o !! "x" = None /\ o !! "y" = None /\
  o !! "width" = None /\ o !! "height" = None /\ o !! "w" = None /\
  o !! "h" = None.
Proof.
  unfold Formats.box_keys. rewrite !Forall_cons. tauto.
Qed.

Ltac unfold_box_of :=
  rewrite !normalizeDetection_obj;
  unfold Formats.box_of, Spec.first_array_field, Spec.first_array_among,
    Spec.array_field, Spec.field_or;
  rewrite ?prop_obj.

(** X3. The formats are interchangeable.  On a record with none of the box
    fields, putting an array under [bbox], under [bounding_box] or under
    [coordinates] gives the same box; and when the array is
    [[a0, a1, a2, a3]] with no [null] or [undefined] entry, so does putting
    its entries under [x], [y], [width], [height], or under [x], [y], [w],
    [h]. *)
Theorem box_formats_agree (o : gmap string JsVal) :
  Forall (fun k => o !! k = None) Formats.box_keys ->
  (forall a : list JsVal,
     normalizeDetection (JObj (<["bounding_box" := JArr a]> o))
     = normalizeDetection (JObj (<["bbox" := JArr a]> o)) /\
     normalizeDetection (JObj (<["coordinates" := JArr a]> o))
     = normalizeDetection (JObj (<["bbox" := JArr a]> o))) /\
  (forall a0 a1 a2 a3 : JsVal,
     is_nullish a0 = false -> is_nullish a1 = false ->
     is_nullish a2 = false -> is_nullish a3 = false ->
     normalizeDetection
       (JObj (<["x" := a0]> (<["y" := a1]> (<["width" := a2]>
             (<["height" := a3]> o)))))
     = normalizeDetection (JObj (<["bbox" := JArr [a0; a1; a2; a3]]> o)) /\
     normalizeDetection
       (JObj (<["x" := a0]> (<["y" := a1]> (<["w" := a2]>
             (<["h" := a3]> o)))))
     = normalizeDetection (JObj (<["bbox" := JArr [a0; a1; a2; a3]]> o))).
Proof.
  intros F.
  destruct (box_keys_free o F) as (B & B' & C & X & Y & W & H & W' & H').
  split.
  - intros a. split; unfold_box_of; by simplify_map_eq.
  - intros a0 a1 a2 a3 N0 N1 N2 N3.
    split; unfold_box_of; simplify_map_eq; by rewrite ?N0, ?N1, ?N2, ?N3.
Qed.

Lemma box_formats_agree_witness :
  normalizeDetection
    (JObj {[ "x" := JNum 1; "y" := JNum 2; "w" := JNum 3; "h" := JNum 4;
             "label" := JStr "person" ]})
  = normalizeDetection
      (JObj {[ "bbox" := JArr [JNum 1; JNum 2; JNum 3; JNum 4];
               "label" := JStr "person" ]}).
Proof.
  refine (proj2 (proj2 (box_formats_agree {[ "label" := JStr "person" ]} _)
                   (JNum 1) (JNum 2) (JNum 3) (JNum 4)
                   eq_refl eq_refl eq_refl eq_refl)).
  unfold Formats.box_keys. repeat constructor.
Defined.

(** X4. Normalising is the identity on a box written back as the record
    [{ x, y, width, height, label, confidence }], as long as no coordinate
    is [null] or [undefined] and neither the label nor the confidence is
    [null]. *)
Theorem normalize_scalar_record (b : BoundingBox) :
  is_nullish (x b) = false -> is_nullish (y b) = false ->
  is_nullish (width b) = false -> is_nullish (height b) = false ->
  label b <> JNull -> confidence b <> JNull ->
  normalizeDetection (JObj (Formats.scalar_record b)) = Some b.
Proof.
  destruct b as [bx by_ bw bh bl bc]. cbn [x y width height label confidence].
  intros Nx Ny Nw Nh Nl Nc. unfold Formats.scalar_record. unfold_box_of.
  cbn [x y width height label confidence]. simplify_map_eq.
  rewrite Nx, Ny, Nw, Nh.
  by destruct bl, bc.
Qed.

Lemma normalize_scalar_record_witness :
  normalizeDetection (JObj (Formats.scalar_record box_zero_confidence))
  = Some box_zero_confidence.
Proof.
  apply normalize_scalar_record; (reflexivity || discriminate).
Defined.

(** ** From the raw record to what is drawn *)









(** ** The component as a whole *)

Lemma badge_by_count (boxes : list BoundingBox) :
  badge boxes
  = match length boxes with
    | 0 => None
    | 1 => Some "1 detection"
    | n => Some (dec n ++ " detections")
    end.
Proof. unfold badge. by destruct boxes as [|b [|b' boxes]]. Qed.

Lemma object_free_coerce (v : JsVal) :
  object_free v = true -> coerce_throws v = false.
Proof.
  revert v. fix IH 1. intros [| | | | |a|o]; cbn; try done.
  revert a. fix IHa 1. intros [|v a]; cbn; [done|].
  intros [Hv Ha]%andb_true_iff.
  by rewrite (IH v Hv), (IHa a Ha).
Qed.

Lemma object_free_child (v : JsVal) :
  object_free v = true -> invalid_child v = false.
Proof.
  revert v. fix IH 1. intros [| | | | |a|o]; cbn; try done.
  revert a. fix IHa 1. intros [|v a]; cbn; [done|].
  intros [Hv Ha]%andb_true_iff.
  by rewrite (IH v Hv), (IHa a Ha).
Qed.

Lemma object_free_elem (a : list JsVal) (i : nat) :
  object_free (JArr a) = true -> object_free (elem a i) = true.
Proof.
  cbn. unfold elem. intros H.
  destruct (a !! i) as [v|] eqn:E; [|done]. cbn.
  rewrite forallb_forall in H. apply H.
  apply list_elem_of_In. by eapply list_elem_of_lookup_2.
Qed.

Lemma object_free_length (v : JsVal) :
  object_free v = true ->
  coerce_throws (nullish_or (optional_length v) (JNum 0)) = false.
Proof.
  destruct v; try done; intros _; unfold optional_length; cbn.
  all: unfold nullish_or; by destruct (is_nullish _).
Qed.

Lemma boxThrows_object_free (index : nat) (box : BoundingBox) :
  Formats.fields_object_free box -> boxThrows index box = false.
Proof.
  intros (Hx & Hy & Hw & Hh & Hl & Hc). unfold boxThrows.
  rewrite (object_free_coerce _ Hx), (object_free_coerce _ Hy),
    (object_free_coerce _ Hw), (object_free_coerce _ Hh),
    (object_free_coerce _ Hc), (object_free_length _ Hl).
  rewrite object_free_child.
  - by destruct (chipShown box), (is_undefined (confidence box)).
  - unfold chipLabelChild, nullish_or. by destruct (is_nullish (label box)).
Qed.

Section PlainRecord.

Variable o : gmap string JsVal.
Hypothesis plain : map_Forall (fun _ v => object_free v = true) o.

Lemma plain_prop (k : string) : object_free (prop (JObj o) k) = true.
Proof.
  rewrite prop_obj. destruct (o !! k) as [v|] eqn:E; [|done].
  exact (plain k v E).
Qed.

Lemma plain_field_or (k : string) (dflt : JsVal) :
  object_free dflt = true -> object_free (Spec.field_or o k dflt) = true.
Proof.
  intros D. unfold Spec.field_or.
  destruct (o !! k) as [v|] eqn:E; [|done].
  destruct (is_nullish v); [done|]. exact (plain k v E).
Qed.

Lemma plain_first_array_field (a : list JsVal) :
  Spec.first_array_field o = Some a -> object_free (JArr a) = true.
Proof.
  assert (F : forall k, Spec.array_field o k = Some a ->
                        object_free (JArr a) = true).
  { intros k. unfold Spec.array_field.
    destruct (o !! k) as [[]|] eqn:E; try discriminate.
    intros [= <-]. exact (plain k _ E). }
  unfold Spec.first_array_field. cbn.
  destruct (Spec.array_field o "bbox") eqn:E1; [intros [= <-]; eauto|].
  destruct (Spec.array_field o "bounding_box") eqn:E2; [intros [= <-]; eauto|].
  destruct (Spec.array_field o "coordinates") eqn:E3; [intros [= <-]; eauto|].
  discriminate.
Qed.

Lemma plain_box_of : Formats.fields_object_free (Formats.box_of o).
Proof.
  unfold Formats.fields_object_free, Formats.box_of.
  destruct (Spec.first_array_field o) as [a|] eqn:E;
    cbn [x y width height label confidence].
  - pose proof (plain_first_array_field a E) as A.
    repeat split;
      repeat first [ done | by apply object_free_elem | apply plain_prop
                   | apply plain_field_or ].
  - repeat split;
      repeat first [ done | apply plain_prop | apply plain_field_or ].
Qed.

End PlainRecord.

Lemma plain_detection_box (d : JsVal) (box : BoundingBox) :
  Formats.plain_detection d -> normalizeDetection d = Some box ->
  Formats.fields_object_free box.
Proof.
  destruct d; cbn [Formats.plain_detection]; try done.
  - intros _ [= <-]. by repeat split.
  - intros _ [= <-]. by repeat split.
  - intros _ [= <-]. by repeat split.
  - intros _ [= <-]. by repeat split.
  - intros P. rewrite normalizeDetection_obj. intros [= <-].
    by apply plain_box_of.
Qed.

Lemma plain_detection_not_nullish (d : JsVal) :
  Formats.plain_detection d -> is_nullish d = false.
Proof. by destruct d. Qed.

Lemma existsb_imap_false {A} (f : nat -> A -> bool) (l : list A) :
  (forall i v, l !! i = Some v -> f i v = false) ->
  existsb (fun t => t) (imap f l) = false.
Proof.
  revert f. induction l as [|v l IH]; intros f H; cbn; [done|].
  rewrite (H 0%nat v eq_refl). cbn. apply IH.
  intros i v' E. exact (H (S i) v' E).
Qed.

Lemma throws_nullish (ds : list JsVal) :
  Exists (fun d => is_nullish d = true) ds ->
  ImageOverlay.throws (Some ds) = true.
Proof.
  intros E. unfold ImageOverlay.throws.
  destruct (normalizeBoundingBoxes ds) as [boxes|] eqn:N; [|done].
  assert (F : Forall (fun d => is_nullish d = false) ds).
  { apply normalizeBoundingBoxes_is_Some. rewrite N. eauto. }
  apply Exists_exists in E as (d & Hd & Hn).
  rewrite Forall_forall in F. specialize (F d Hd). congruence.
Qed.

Lemma throws_plain (ds : list JsVal) :
  Forall Formats.plain_detection ds -> ImageOverlay.throws (Some ds) = false.
Proof.
  intros P. unfold ImageOverlay.throws.
  destruct (normalizeBoundingBoxes ds) as [boxes|] eqn:N.
  - apply existsb_imap_false. intros i box B.
    unfold normalizeBoundingBoxes in N. apply mapM_Some in N.
    destruct (Forall2_lookup_r _ _ _ _ _ N B) as (d & Hd & Hn).
    apply boxThrows_object_free. apply (plain_detection_box d); [|done].
    rewrite Forall_forall in P. apply P. by eapply list_elem_of_lookup_2.
  - assert (S : is_Some (normalizeBoundingBoxes ds)).
    { apply normalizeBoundingBoxes_is_Some.
      eapply Forall_impl; [exact P|]. apply plain_detection_not_nullish. }
    rewrite N in S. by destruct S.
Qed.

(** X8. Without detections ([null]) the component draws nothing and shows
    no badge.  With a list, a [null] or [undefined] element makes the
    render throw, and so do the record [{ x: { toString: 1 } }] (the
    product [box.x * scaleX] cannot convert the object) and the record
    [{ label: { name: "cat" } }] (an object is no valid child of the text
    element); a list of detections that are not [null] or [undefined] and
    hold no object in any field, at any depth, always renders.  Whenever
    the component renders it draws one annotation per detection, and the
    badge is absent for the empty list, "1 detection" for one box, and the
    count followed by " detections" for more. *)
Theorem render_counts (imageDimensions naturalDimensions : Size.t) :
  render None imageDimensions naturalDimensions = Some ([], None) /\
  render (Some [JObj x_own_toString]) imageDimensions naturalDimensions
  = None /\
  render (Some [JObj object_label]) imageDimensions naturalDimensions
  = None /\
  forall ds,
    (Exists (fun d => is_nullish d = true) ds ->
     render (Some ds) imageDimensions naturalDimensions = None) /\
    (Forall Formats.plain_detection ds ->
     is_Some (render (Some ds) imageDimensions naturalDimensions)) /\
    forall anns b,
      render (Some ds) imageDimensions naturalDimensions = Some (anns, b) ->
      length anns = length ds /\
      b = match length ds with
          | 0 => None
          | 1 => Some "1 detection"
          | n => Some (dec n ++ " detections")
          end.
Proof.
  do 3 (split; [reflexivity|]). intros ds. split; [|split].
  - intros E. unfold render. by rewrite throws_nullish.
  - intros P. unfold render. rewrite (throws_plain ds P).
    destruct (normalizeBoundingBoxes ds) as [boxes|] eqn:N; [by eauto|].
    assert (S : is_Some (normalizeBoundingBoxes ds)).
    { apply normalizeBoundingBoxes_is_Some.
      eapply Forall_impl; [exact P|]. apply plain_detection_not_nullish. }
    rewrite N in S. by destruct S.
  - intros anns b R.
    destruct (render_Some_inv _ _ _ _ _ R) as (boxes & N & _ & -> & ->).
    apply normalizeBoundingBoxes_length in N.
    unfold renderBoxes. by rewrite length_imap, badge_by_count, N.
Qed.

Lemma render_counts_witness :
  render (Some [JObj bbox_and_scalars; JNull])
         (Size.mk 200 300) (Size.mk 100 100) = None /\
  exists anns,
    render (Some [JObj bbox_and_scalars; JObj scalars_only])
           (Size.mk 200 300) (Size.mk 100 100)
    = Some (anns, Some "2 detections") /\ length anns = 2%nat.
Proof.
  destruct (render_counts (Size.mk 200 300) (Size.mk 100 100))
    as (_ & _ & _ & H).
  split.
  - apply (proj1 (H [JObj bbox_and_scalars; JNull])).
    apply Exists_cons_tl, Exists_cons_hd. reflexivity.
  - destruct (H [JObj bbox_and_scalars; JObj scalars_only]) as (_ & S & C).
    destruct S as [[anns b] E].
    { rewrite !Forall_cons. split; [|split; [|apply Forall_nil_2]];
        cbn [Formats.plain_detection];
        apply (bool_decide_unpack _); vm_compute; exact I. }
    destruct (C anns b E) as [L B]. exists anns. split; [|exact L].
    rewrite E. by rewrite B.
Defined.

(** ** [getDetections] *)

Lemma getDetections_arr (a : list JsVal) : getDetections (JArr a) = JArr a.
Proof. reflexivity. Qed.

(** X9. [getDetections] returns an array or [null], never anything else,
    so that [detections.length] is safe behind [detections &&]; and it is
    idempotent: applied to its own result it returns it unchanged. *)
Theorem getDetections_array_or_null (payload : JsVal) :
  (getDetections payload = JNull \/
   exists a, getDetections payload = JArr a) /\
  getDetections (getDetections payload) = getDetections payload.
Proof.
  assert (H : getDetections payload = JNull \/
              exists a, getDetections payload = JArr a).
  { destruct payload; try (by left).
    - unfold getDetections. cbn. left. by destruct (negb b).
    - unfold getDetections. cbn. left. by destruct (negb (num_truthy n)).
    - unfold getDetections. cbn. left.
      by destruct (negb (negb (String.eqb s ""))).
    - right. eauto.
    - rewrite getDetections_obj. destruct (Spec.first_array_among _ _); eauto. }
  split; [exact H|].
  destruct H as [-> | [a ->]]; reflexivity.
Qed.

(** ** Invariants of the running page *)

Lemma step_preview_in_step (w w' : World) :
  step w w' -> preview_in_step w -> preview_in_step w'.
Proof.
  unfold preview_in_step.
  intros [w0 file Hc | w0 Hc | w0 outcome Hp] [L F].
  - apply controls_upload_no_preview in Hc. rewrite Hc in L. cbn.
    rewrite L. split; [apply union_empty_r_L | done].
  - cbn. split; [|done].
    destruct (previewUrl (app w0)) as [u|]; [|done].
    rewrite L. apply difference_diag_L.
  - unfold handleImageUpload_settle. cbn.
    by destruct (try_block outcome).
Qed.

Lemma step_analyzing_pending (w w' : World) :
  step w w' ->
  (isAnalyzing (app w) = true -> (0 < pending w)%nat) ->
  isAnalyzing (app w') = true -> (0 < pending w')%nat.
Proof.
  intros [w0 file Hc | w0 Hc | w0 outcome Hp] IH; cbn; [lia | exact IH |].
  discriminate.
Qed.

Lemma reachable_preview_in_step (w : World) :
  reachable w -> preview_in_step w.
Proof.
  unfold reachable. revert w. apply (rtc_ind_r preview_in_step init).
  - by split.
  - intros w1 w2 _ S IH. by eapply step_preview_in_step.
Qed.

Lemma crashed_has_preview (a : AppState) :
  crashed a = true -> is_Some (previewUrl a).
Proof.
  unfold crashed, overlayShown.
  intros [[P _]%andb_true_iff _]%andb_true_iff.
  by apply bool_decide_eq_true in P.
Qed.

(** X10. In every state the page can reach and whose render has not
    thrown, the browser's table holds exactly the URL of the displayed
    preview (so the page never shows a revoked URL) and nothing when there
    is no preview, and the stored file and the preview are present or
    absent together.  In a state the page can reach and whose render has
    thrown, nothing is displayed and the table still holds one URL. *)
Theorem displayed_preview_is_live (w : World) :
  reachable w ->
  (crashed (app w) = false ->
   live w = match displayedPreview (app w) with
            | Some u => {[u]}
            | None => ∅
            end /\
   (previewUrl (app w) = None <-> imageFile (app w) = None)) /\
  (crashed (app w) = true ->
   displayedPreview (app w) = None /\ exists u, live w = {[u]}).
Proof.
  intros [L F]%reachable_preview_in_step. unfold displayedPreview. split.
  - intros ->. by split.
  - intros C. rewrite C. split; [done|].
    destruct (crashed_has_preview _ C) as [u E]. rewrite E in L. eauto.
Qed.

Lemma displayed_preview_is_live_witness :
  live uploadingB = {[1%nat]} /\
  (previewUrl (app uploadingB) = None <-> imageFile (app uploadingB) = None).
Proof.
  exact (proj1 (displayed_preview_is_live uploadingB reachable_uploadingB)
           eq_refl).
Defined.

(** X11. In every state the page can reach, [isAnalyzing] is set only
    while a [fetch] of [handleImageUpload] is outstanding: the
    "ANALYZING..." and "Awaiting response..." displays always end. *)
Theorem analyzing_has_pending_fetch (w : World) :
  reachable w -> isAnalyzing (app w) = true -> (0 < pending w)%nat.
Proof.
  unfold reachable. revert w.
  apply (rtc_ind_r
           (fun w => isAnalyzing (app w) = true -> (0 < pending w)%nat) init).
  - discriminate.
  - intros w1 w2 _ S IH. by eapply step_analyzing_pending.
Qed.

Lemma analyzing_has_pending_fetch_witness : (0 < pending uploadingB)%nat.
Proof.
  exact (analyzing_has_pending_fetch uploadingB reachable_uploadingB eq_refl).
Defined.

(** X12. [handleClear] does not cancel an upload.  Pressed while the
    [fetch] is outstanding it releases the preview, but the panel stays
    on Uploading and the [fetch] stays outstanding; when it then settles
    with a success, the stale result is stored although no image is held
    any more, and the page offers the upload control. *)
Theorem clear_does_not_cancel_upload (w : World) (file : File)
    (res : Response) (data : JsVal) :
  ok res = true ->
  json res = Fulfilled data ->
  let w1 := handleClear (handleImageUpload_begin file w) in
  let w2 := handleImageUpload_settle (Fulfilled res) w1 in
  pipelineState (app w1) = Uploading /\
  (next w ∉ live w1) /\
  step w1 w2 /\
  response (app w2) = data /\
  previewUrl (app w2) = None /\ imageFile (app w2) = None /\
  controls (app w2) = [UploadControl].
Proof.
  intros O J w1 w2. split; [reflexivity|]. split.
  { cbn. apply not_elem_of_difference. right. by apply elem_of_singleton. }
  split; [apply step_settle; cbn; lia|].
  subst w2. unfold handleImageUpload_settle, try_block. rewrite O, J.
  by repeat split.
Qed.

Lemma clear_does_not_cancel_upload_witness :
  let w2 := handleImageUpload_settle (Fulfilled http_200)
              (handleClear (handleImageUpload_begin imageA init)) in
  response (app w2) = one_detection /\ previewUrl (app w2) = None.
Proof.
  destruct (clear_does_not_cancel_upload init imageA http_200 one_detection
              eq_refl eq_refl) as (_ & _ & _ & R & P & _).
  exact (conj R P).
Defined.

(** X13. An upload answered with a success status and a parsable body
    ends on Succeeded only when the parsed value is truthy: for the bodies
    [null], [0], [false] and the empty string the value is stored, no
    error is set, and the panel shows the "No data yet" placeholder. *)
Theorem upload_success_shows_truthy_only (w : World) (file : File)
    (res : Response) (data : JsVal) :
  ok res = true ->
  json res = Fulfilled data ->
  let w2 := handleImageUpload_settle (Fulfilled res)
              (handleImageUpload_begin file w) in
  response (app w2) = data /\ error (app w2) = None /\
  isAnalyzing (app w2) = false /\
  pipelineState (app w2) = if truthy data then Succeeded data else Idle.
Proof.
  intros O J w2. subst w2.
  unfold handleImageUpload_settle, try_block. rewrite O, J.
  by repeat split.
Qed.

Lemma upload_success_shows_truthy_only_witness :
  pipelineState
    (app (handleImageUpload_settle
            (Fulfilled {| status := 200; text := Fulfilled "null";
                          json := Fulfilled JNull |})
            (handleImageUpload_begin imageA init)))
  = Idle.
Proof.
  exact (proj2 (proj2 (proj2 (upload_success_shows_truthy_only init imageA
           {| status := 200; text := Fulfilled "null";
              json := Fulfilled JNull |} JNull eq_refl eq_refl)))).
Defined.

(** X14. When [fetch] itself is rejected, or the body of a response with a
    success status cannot be parsed, the upload ends with the message of
    the thrown [Error], or with "Unknown error occurred" when the thrown
    value is not an [Error]; no result is stored.  The panel shows Failed
    with that message, except for an [Error] with the empty message, for
    which it shows the placeholder. *)
Theorem upload_rejection_message (w : World) (file : File)
    (outcome : Settled Response) (e : Thrown) :
  outcome = Rejected e \/
  (exists res, outcome = Fulfilled res /\ ok res = true /\
               json res = Rejected e) ->
  let w2 := handleImageUpload_settle outcome
              (handleImageUpload_begin file w) in
  error (app w2) = Some (message_of e) /\
  response (app w2) = JNull /\
  pipelineState (app w2)
  = (if String.eqb (message_of e) "" then Idle else Failed (message_of e)) /\
  (e = OtherThrown ->
   pipelineState (app w2) = Failed "Unknown error occurred").
Proof.
  intros H w2.
  assert (T : try_block outcome = Rejected e).
  { destruct H as [-> | (res & -> & O & J)]; [reflexivity|].
    unfold try_block. by rewrite O. }
  subst w2. unfold handleImageUpload_settle. rewrite T.
  split; [reflexivity|]. split; [reflexivity|]. split.
  - unfold pipelineState, view. cbn.
    by destruct (String.eqb (message_of e) "").
  - by intros ->.
Qed.

Lemma upload_rejection_message_witness :
  pipelineState
    (app (handleImageUpload_settle (Rejected (ErrorObj "Failed to fetch"))
            (handleImageUpload_begin imageA init)))
  = Failed "Failed to fetch".
Proof.
  exact (proj1 (proj2 (proj2 (upload_rejection_message init imageA
           (Rejected (ErrorObj "Failed to fetch")) (ErrorObj "Failed to fetch")
           (or_introl eq_refl))))).
Defined.

(** ** UploadZone: what a drop and a file choice upload *)

(** X15. A drop uploads at most one file, the first of the dropped list,
    and only when its type starts with "image/": a list whose first file
    is not an image uploads nothing and leaves the page as it is, whatever
    follows.  A choice in the file dialog uploads the first chosen file
    whatever its type.  A drop always resets the drag-over flag. *)
Theorem drop_uploads_first_image_only
    (files : list UploadZoneHandlers.PickedFile) (w : World) :
  fst (UploadZoneHandlers.handleDrop files) = false /\
  (forall f, snd (UploadZoneHandlers.handleDrop files) = Some f <->
     exists p rest, files = p :: rest /\
       String.prefix "image/" (UploadZoneHandlers.type p) = true /\
       f = UploadZoneHandlers.file p) /\
  (snd (UploadZoneHandlers.handleDrop files) = None ->
   UploadZoneHandlers.drop files w = w) /\
  (forall p rest,
     UploadZoneHandlers.select (Some (p :: rest)) w
     = handleImageUpload_begin (UploadZoneHandlers.file p) w).
Proof.
  split; [reflexivity|]. split; [|split].
  - intros f. unfold UploadZoneHandlers.handleDrop. cbn.
    destruct files as [|p rest].
    + split; [discriminate | by intros (? & ? & ? & _)].
    + destruct (String.prefix "image/" (UploadZoneHandlers.type p)) eqn:E.
      * split; [intros [= <-]; eauto | by intros (? & ? & [= <- <-] & _ & ->)].
      * split; [discriminate|].
        intros (? & ? & [= <- <-] & E' & _). congruence.
  - intros H. unfold UploadZoneHandlers.drop. by rewrite H.
  - reflexivity.
Qed.

Lemma drop_uploads_first_image_only_witness :
  UploadZoneHandlers.drop
    [UploadZoneHandlers.mkPicked "application/pdf" imageA;
     UploadZoneHandlers.mkPicked "image/png" imageB] init = init /\
  snd (UploadZoneHandlers.handleDrop
         [UploadZoneHandlers.mkPicked "image/png" imageB;
          UploadZoneHandlers.mkPicked "image/jpeg" imageA]) = Some imageB.
Proof.
  split.
  - apply (proj1 (proj2 (proj2 (drop_uploads_first_image_only _ init)))).
    reflexivity.
  - apply (proj1 (proj2 (drop_uploads_first_image_only _ init))).
    eexists _, _. split; [reflexivity|]. split; reflexivity.
Defined.

(** ** StatusIndicator *)

Lemma status_step_online (s s' : StatusIndicator.State) :
  StatusIndicator.step s s' -> online_has_latency s' .
Proof.
  unfold online_has_latency.
  intros [s0 | s0 [res | e] elapsed Hp]; cbn; try discriminate.
  intros _. eauto.
Qed.

Lemma status_step_checking (s s' : StatusIndicator.State) :
  StatusIndicator.step s s' -> checking_has_fetch s'.
Proof.
  unfold checking_has_fetch.
  intros [s0 | s0 [res | e] elapsed Hp]; cbn.
  - intros _. right. lia.
  - by destruct (ok res).
  - discriminate.
Qed.

(** X16. In every state the status indicator can reach, a latency is
    shown exactly when the status is online: the latency a failed or
    rejected check leaves behind, or the one kept during a re-check, is
    never displayed, and an online indicator always has one to display. *)
Theorem latency_shown_iff_online (s : StatusIndicator.State) :
  StatusIndicator.reachable s ->
  (is_Some (StatusIndicator.shownLatency s) <->
   StatusIndicator.status s = StatusIndicator.online).
Proof.
  intros R.
  assert (I : online_has_latency s).
  { revert s R. apply (rtc_ind_r online_has_latency StatusIndicator.init).
    - discriminate.
    - intros s1 s2 _ S _. by eapply status_step_online. }
  unfold StatusIndicator.shownLatency. unfold online_has_latency in I.
  destruct (StatusIndicator.status s), (StatusIndicator.latency s);
    split; try done; try (by intros [? ?]).
Qed.

Lemma status_reachable_online :
  StatusIndicator.reachable
    (StatusIndicator.checkConnection_settle (Fulfilled http_200) 42
       (StatusIndicator.checkConnection_begin StatusIndicator.init)).
Proof.
  unfold StatusIndicator.reachable.
  eapply rtc_r; [eapply rtc_once; apply StatusIndicator.step_check|].
  apply StatusIndicator.step_settle. cbn. lia.
Defined.

Lemma latency_shown_iff_online_witness :
  StatusIndicator.shownLatency
    (StatusIndicator.checkConnection_settle (Fulfilled http_200) 42
       (StatusIndicator.checkConnection_begin StatusIndicator.init))
  = Some 42%Z.
Proof.
  destruct (proj2 (latency_shown_iff_online _ status_reachable_online)
                  eq_refl) as [l H].
  cbn in H. injection H as <-. reflexivity.
Defined.

(** X17. Once the first check has started, the indicator says "Checking
    Connection..." only while a [fetch] of [checkConnection] is
    outstanding: every settled check replaces it by online or offline. *)
Theorem checking_means_fetch_outstanding (s : StatusIndicator.State) :
  StatusIndicator.reachable s ->
  StatusIndicator.status s = StatusIndicator.checking ->
  s = StatusIndicator.init \/ (0 < StatusIndicator.inflight s)%nat.
Proof.
  revert s. apply (rtc_ind_r checking_has_fetch StatusIndicator.init).
  - intros _. by left.
  - intros s1 s2 _ S _. by eapply status_step_checking.
Qed.

Lemma checking_means_fetch_outstanding_witness :
  (0 < StatusIndicator.inflight
         (StatusIndicator.checkConnection_begin StatusIndicator.init))%nat.
Proof.
  destruct (checking_means_fetch_outstanding
              (StatusIndicator.checkConnection_begin StatusIndicator.init))
    as [E | H].
  - apply rtc_once. apply StatusIndicator.step_check.
  - reflexivity.
  - discriminate E.
  - exact H.
Defined.
